(** * Booking form page (src/app/book/page.tsx): state, derived gates, handlers

    The page is one React component whose state is a set of [useState]
    hooks.  The embedding keeps one record field per hook, one setter per
    hook setter, one function per [useMemo] value and one constructor of
    [Event] per event handler of the markup. *)

From Stdlib Require Import String Ascii ZArith NArith Bool Lia List.
Import ListNotations.

Local Open Scope string_scope.
Local Open Scope list_scope.
Local Open Scope nat_scope.

(** ** JavaScript strings

    A JavaScript string is a sequence of UTF-16 code units and [length]
    counts code units, so a string is a list of code units here. *)

Module JS.

Definition jsstring : Type := list N.

(** A literal of the source; every literal of the page is ASCII, where the
    code unit is the character code. *)
Definition str (s : string) : jsstring := map N_of_ascii (list_ascii_of_string s).

(** [a === b] on strings. *)
Fixpoint strictEq (a b : jsstring) : bool :=
  match a, b with
  | [], [] => true
  | x :: a', y :: b' => N.eqb x y && strictEq a' b'
  | _, _ => false
  end.

(** [a !== b]. *)
Definition strictNe (a b : jsstring) : bool := negb (strictEq a b).

(** WhiteSpace and LineTerminator code points of ECMAScript, the characters
    that [String.prototype.trim] strips: TAB, LF, VT, FF, CR, SP, NBSP,
    U+1680, U+2000..U+200A, LS, PS, U+202F, U+205F, U+3000 and the BOM. *)
Definition isWhiteSpace (c : N) : bool :=
  (N.eqb c 9 || N.eqb c 10 || N.eqb c 11 || N.eqb c 12 || N.eqb c 13
   || N.eqb c 32 || N.eqb c 160 || N.eqb c 5760
   || (N.leb 8192 c && N.leb c 8202)
   || N.eqb c 8232 || N.eqb c 8233 || N.eqb c 8239 || N.eqb c 8287
   || N.eqb c 12288 || N.eqb c 65279)%bool.

Fixpoint trimStart (s : jsstring) : jsstring :=
  match s with
  | [] => []
  | c :: r => if isWhiteSpace c then trimStart r else s
  end.

Definition trimEnd (s : jsstring) : jsstring := rev (trimStart (rev s)).

(** [s.trim()] *)
Definition trim (s : jsstring) : jsstring := trimEnd (trimStart s).

Fixpoint startsWith (pat s : jsstring) : bool :=
  match pat, s with
  | [], _ => true
  | p :: pat', c :: s' => N.eqb p c && startsWith pat' s'
  | _ :: _, [] => false
  end.

(** [s.includes(pat)]: [pat] occurs in [s] as a substring. *)
Fixpoint includes (s pat : jsstring) : bool :=
  startsWith pat s ||
  match s with
  | [] => false
  | _ :: r => includes r pat
  end.

(** [arr.filter((x, i) => p x i)], the index counted from [i]. *)
Fixpoint filterFrom {A : Type} (p : A -> nat -> bool) (i : nat) (l : list A) : list A :=
  match l with
  | [] => []
  | x :: r => if p x i then x :: filterFrom p (S i) r else filterFrom p (S i) r
  end.

Definition filter_i {A : Type} (p : A -> nat -> bool) (l : list A) : list A :=
  filterFrom p 0 l.

(** [Array.from(fl || [])]: a missing file list reads as the empty array. *)
Definition arrayFrom {A : Type} (fl : option (list A)) : list A :=
  match fl with
  | Some l => l
  | None => []
  end.

End JS.

Import JS.

(** ** The page *)

(** [type PrimaryService]: seven service keys and the empty string. *)
Inductive PrimaryService : Type :=
| get_counsel
| legal_drafting
| liaison_lawyers
| courtroom_tech
| advocate_vigilance
| document_review
| legal_assessment
| service_empty.

Definition PrimaryService_str (k : PrimaryService) : jsstring :=
  match k with
  | get_counsel => str "get_counsel"
  | legal_drafting => str "legal_drafting"
  | liaison_lawyers => str "liaison_lawyers"
  | courtroom_tech => str "courtroom_tech"
  | advocate_vigilance => str "advocate_vigilance"
  | document_review => str "document_review"
  | legal_assessment => str "legal_assessment"
  | service_empty => []
  end.

(** [type Urgency]: three tiers; the type has no empty member. *)
Inductive Urgency : Type :=
| standard_24_48
| within_6
| within_2.

Definition Urgency_str (u : Urgency) : jsstring :=
  match u with
  | standard_24_48 => str "standard_24_48"
  | within_6 => str "within_6"
  | within_2 => str "within_2"
  end.

(** [const FEES] *)
Record Fees : Type := mkFees {
  base : Z;
  urgency_fee : Urgency -> Z
}.

Definition FEES : Fees :=
  {| base := 1500;
     urgency_fee := fun u =>
       match u with
       | standard_24_48 => 0
       | within_6 => 500
       | within_2 => 1000
       end |}%Z.

(** The keys of [PRIMARY_SERVICES], in the order of the table. *)
Definition PRIMARY_SERVICES : list PrimaryService :=
  [get_counsel; legal_drafting; liaison_lawyers; courtroom_tech;
   advocate_vigilance; document_review; legal_assessment].

(** The state type of [legalDomain]: a member of [LEGAL_DOMAINS] or the
    empty string. *)
Inductive LegalDomain : Type :=
| dom_corporate
| dom_family
| dom_property
| dom_criminal
| dom_civil
| dom_nri
| dom_employment
| dom_other
| domain_empty.

Definition LegalDomain_str (d : LegalDomain) : jsstring :=
  match d with
  | dom_corporate => str "Corporate, Commercial and Startups"
  | dom_family => str "Family and Matrimonial"
  | dom_property => str "Property and Real Estate"
  | dom_criminal => str "Criminal Matters"
  | dom_civil => str "Civil & Consumer Disputes"
  | dom_nri => str "NRI Specific Services"
  | dom_employment => str "Employment & Labor"
  | dom_other => str "Other"
  | domain_empty => []
  end.

Definition LEGAL_DOMAINS : list LegalDomain :=
  [dom_corporate; dom_family; dom_property; dom_criminal;
   dom_civil; dom_nri; dom_employment; dom_other].

Inductive Gender : Type := male | female | other | gender_empty.

Definition Gender_str (g : Gender) : jsstring :=
  match g with
  | male => str "male"
  | female => str "female"
  | other => str "other"
  | gender_empty => []
  end.

Inductive ConsultMode : Type := audio | video | in_person | mode_empty.

Definition ConsultMode_str (m : ConsultMode) : jsstring :=
  match m with
  | audio => str "audio"
  | video => str "video"
  | in_person => str "in_person"
  | mode_empty => []
  end.

Inductive PastLegalAction : Type := yes | no | action_empty.

Definition PastLegalAction_str (v : PastLegalAction) : jsstring :=
  match v with
  | yes => str "yes"
  | no => str "no"
  | action_empty => []
  end.

(** The options of the gender [select], the first one being "Select". *)
Definition GENDER_OPTIONS : list Gender := [gender_empty; male; female; other].

(** The options of the consultation-mode pills. *)
Definition CONSULT_MODES : list ConsultMode := [audio; video; in_person].

(** The options of the time-window [select]. *)
Definition TIME_WINDOWS : list jsstring :=
  [str "10:00 AM - 12:00 PM"; str "12:00 PM - 02:00 PM"; str "02:00 PM - 04:00 PM";
   str "04:00 PM - 06:00 PM"; str "06:00 PM - 08:00 PM"].

(** The two "past legal action" buttons. *)
Definition PAST_ACTIONS : list PastLegalAction := [yes; no].

(** A browser [File]: its name and an opaque handle. *)
Record File : Type := mkFile {
  file_name : jsstring;
  file_handle : N
}.

(** The [useState] hooks of [BookingFormPage]. *)
Record State : Type := mkState {
  step : Z;
  name : jsstring;
  gender : Gender;
  email : jsstring;
  emailOtp : jsstring;
  phone : jsstring;
  phoneOtp : jsstring;
  nationality : jsstring;
  dob : jsstring;
  address : jsstring;
  emailOtpSent : bool;
  emailOtpVerified : bool;
  phoneOtpSent : bool;
  phoneOtpVerified : bool;
  primaryService : PrimaryService;
  legalDomain : LegalDomain;
  caseDetails : jsstring;
  consultMode : ConsultMode;
  preferredDate : jsstring;
  timeWindow : jsstring;
  urgency : Urgency;
  pastLegalAction : PastLegalAction;
  files : list File
}.

Definition setStep (v : Z) (s : State) : State :=
  {| step := v; name := name s; gender := gender s; email := email s;
     emailOtp := emailOtp s; phone := phone s; phoneOtp := phoneOtp s;
     nationality := nationality s; dob := dob s; address := address s;
     emailOtpSent := emailOtpSent s; emailOtpVerified := emailOtpVerified s;
     phoneOtpSent := phoneOtpSent s; phoneOtpVerified := phoneOtpVerified s;
     primaryService := primaryService s; legalDomain := legalDomain s;
     caseDetails := caseDetails s; consultMode := consultMode s;
     preferredDate := preferredDate s; timeWindow := timeWindow s; urgency := urgency s;
     pastLegalAction := pastLegalAction s; files := files s |}.

Definition setName (v : jsstring) (s : State) : State :=
  {| step := step s; name := v; gender := gender s; email := email s;
     emailOtp := emailOtp s; phone := phone s; phoneOtp := phoneOtp s;
     nationality := nationality s; dob := dob s; address := address s;
     emailOtpSent := emailOtpSent s; emailOtpVerified := emailOtpVerified s;
     phoneOtpSent := phoneOtpSent s; phoneOtpVerified := phoneOtpVerified s;
     primaryService := primaryService s; legalDomain := legalDomain s;
     caseDetails := caseDetails s; consultMode := consultMode s;
     preferredDate := preferredDate s; timeWindow := timeWindow s; urgency := urgency s;
     pastLegalAction := pastLegalAction s; files := files s |}.

Definition setGender (v : Gender) (s : State) : State :=
  {| step := step s; name := name s; gender := v; email := email s; emailOtp := emailOtp s;
     phone := phone s; phoneOtp := phoneOtp s; nationality := nationality s; dob := dob s;
     address := address s; emailOtpSent := emailOtpSent s;
     emailOtpVerified := emailOtpVerified s; phoneOtpSent := phoneOtpSent s;
     phoneOtpVerified := phoneOtpVerified s; primaryService := primaryService s;
     legalDomain := legalDomain s; caseDetails := caseDetails s;
     consultMode := consultMode s; preferredDate := preferredDate s;
     timeWindow := timeWindow s; urgency := urgency s;
     pastLegalAction := pastLegalAction s; files := files s |}.

Definition setEmail (v : jsstring) (s : State) : State :=
  {| step := step s; name := name s; gender := gender s; email := v;
     emailOtp := emailOtp s; phone := phone s; phoneOtp := phoneOtp s;
     nationality := nationality s; dob := dob s; address := address s;
     emailOtpSent := emailOtpSent s; emailOtpVerified := emailOtpVerified s;
     phoneOtpSent := phoneOtpSent s; phoneOtpVerified := phoneOtpVerified s;
     primaryService := primaryService s; legalDomain := legalDomain s;
     caseDetails := caseDetails s; consultMode := consultMode s;
     preferredDate := preferredDate s; timeWindow := timeWindow s; urgency := urgency s;
     pastLegalAction := pastLegalAction s; files := files s |}.

Definition setEmailOtp (v : jsstring) (s : State) : State :=
  {| step := step s; name := name s; gender := gender s; email := email s; emailOtp := v;
     phone := phone s; phoneOtp := phoneOtp s; nationality := nationality s; dob := dob s;
     address := address s; emailOtpSent := emailOtpSent s;
     emailOtpVerified := emailOtpVerified s; phoneOtpSent := phoneOtpSent s;
     phoneOtpVerified := phoneOtpVerified s; primaryService := primaryService s;
     legalDomain := legalDomain s; caseDetails := caseDetails s;
     consultMode := consultMode s; preferredDate := preferredDate s;
     timeWindow := timeWindow s; urgency := urgency s;
     pastLegalAction := pastLegalAction s; files := files s |}.

Definition setPhone (v : jsstring) (s : State) : State :=
  {| step := step s; name := name s; gender := gender s; email := email s;
     emailOtp := emailOtp s; phone := v; phoneOtp := phoneOtp s;
     nationality := nationality s; dob := dob s; address := address s;
     emailOtpSent := emailOtpSent s; emailOtpVerified := emailOtpVerified s;
     phoneOtpSent := phoneOtpSent s; phoneOtpVerified := phoneOtpVerified s;
     primaryService := primaryService s; legalDomain := legalDomain s;
     caseDetails := caseDetails s; consultMode := consultMode s;
     preferredDate := preferredDate s; timeWindow := timeWindow s; urgency := urgency s;
     pastLegalAction := pastLegalAction s; files := files s |}.

Definition setPhoneOtp (v : jsstring) (s : State) : State :=
  {| step := step s; name := name s; gender := gender s; email := email s;
     emailOtp := emailOtp s; phone := phone s; phoneOtp := v; nationality := nationality s;
     dob := dob s; address := address s; emailOtpSent := emailOtpSent s;
     emailOtpVerified := emailOtpVerified s; phoneOtpSent := phoneOtpSent s;
     phoneOtpVerified := phoneOtpVerified s; primaryService := primaryService s;
     legalDomain := legalDomain s; caseDetails := caseDetails s;
     consultMode := consultMode s; preferredDate := preferredDate s;
     timeWindow := timeWindow s; urgency := urgency s;
     pastLegalAction := pastLegalAction s; files := files s |}.

Definition setNationality (v : jsstring) (s : State) : State :=
  {| step := step s; name := name s; gender := gender s; email := email s;
     emailOtp := emailOtp s; phone := phone s; phoneOtp := phoneOtp s; nationality := v;
     dob := dob s; address := address s; emailOtpSent := emailOtpSent s;
     emailOtpVerified := emailOtpVerified s; phoneOtpSent := phoneOtpSent s;
     phoneOtpVerified := phoneOtpVerified s; primaryService := primaryService s;
     legalDomain := legalDomain s; caseDetails := caseDetails s;
     consultMode := consultMode s; preferredDate := preferredDate s;
     timeWindow := timeWindow s; urgency := urgency s;
     pastLegalAction := pastLegalAction s; files := files s |}.

Definition setDob (v : jsstring) (s : State) : State :=
  {| step := step s; name := name s; gender := gender s; email := email s;
     emailOtp := emailOtp s; phone := phone s; phoneOtp := phoneOtp s;
     nationality := nationality s; dob := v; address := address s;
     emailOtpSent := emailOtpSent s; emailOtpVerified := emailOtpVerified s;
     phoneOtpSent := phoneOtpSent s; phoneOtpVerified := phoneOtpVerified s;
     primaryService := primaryService s; legalDomain := legalDomain s;
     caseDetails := caseDetails s; consultMode := consultMode s;
     preferredDate := preferredDate s; timeWindow := timeWindow s; urgency := urgency s;
     pastLegalAction := pastLegalAction s; files := files s |}.

Definition setAddress (v : jsstring) (s : State) : State :=
  {| step := step s; name := name s; gender := gender s; email := email s;
     emailOtp := emailOtp s; phone := phone s; phoneOtp := phoneOtp s;
     nationality := nationality s; dob := dob s; address := v;
     emailOtpSent := emailOtpSent s; emailOtpVerified := emailOtpVerified s;
     phoneOtpSent := phoneOtpSent s; phoneOtpVerified := phoneOtpVerified s;
     primaryService := primaryService s; legalDomain := legalDomain s;
     caseDetails := caseDetails s; consultMode := consultMode s;
     preferredDate := preferredDate s; timeWindow := timeWindow s; urgency := urgency s;
     pastLegalAction := pastLegalAction s; files := files s |}.

Definition setEmailOtpSent (v : bool) (s : State) : State :=
  {| step := step s; name := name s; gender := gender s; email := email s;
     emailOtp := emailOtp s; phone := phone s; phoneOtp := phoneOtp s;
     nationality := nationality s; dob := dob s; address := address s; emailOtpSent := v;
     emailOtpVerified := emailOtpVerified s; phoneOtpSent := phoneOtpSent s;
     phoneOtpVerified := phoneOtpVerified s; primaryService := primaryService s;
     legalDomain := legalDomain s; caseDetails := caseDetails s;
     consultMode := consultMode s; preferredDate := preferredDate s;
     timeWindow := timeWindow s; urgency := urgency s;
     pastLegalAction := pastLegalAction s; files := files s |}.

Definition setEmailOtpVerified (v : bool) (s : State) : State :=
  {| step := step s; name := name s; gender := gender s; email := email s;
     emailOtp := emailOtp s; phone := phone s; phoneOtp := phoneOtp s;
     nationality := nationality s; dob := dob s; address := address s;
     emailOtpSent := emailOtpSent s; emailOtpVerified := v; phoneOtpSent := phoneOtpSent s;
     phoneOtpVerified := phoneOtpVerified s; primaryService := primaryService s;
     legalDomain := legalDomain s; caseDetails := caseDetails s;
     consultMode := consultMode s; preferredDate := preferredDate s;
     timeWindow := timeWindow s; urgency := urgency s;
     pastLegalAction := pastLegalAction s; files := files s |}.

Definition setPhoneOtpSent (v : bool) (s : State) : State :=
  {| step := step s; name := name s; gender := gender s; email := email s;
     emailOtp := emailOtp s; phone := phone s; phoneOtp := phoneOtp s;
     nationality := nationality s; dob := dob s; address := address s;
     emailOtpSent := emailOtpSent s; emailOtpVerified := emailOtpVerified s;
     phoneOtpSent := v; phoneOtpVerified := phoneOtpVerified s;
     primaryService := primaryService s; legalDomain := legalDomain s;
     caseDetails := caseDetails s; consultMode := consultMode s;
     preferredDate := preferredDate s; timeWindow := timeWindow s; urgency := urgency s;
     pastLegalAction := pastLegalAction s; files := files s |}.

Definition setPhoneOtpVerified (v : bool) (s : State) : State :=
  {| step := step s; name := name s; gender := gender s; email := email s;
     emailOtp := emailOtp s; phone := phone s; phoneOtp := phoneOtp s;
     nationality := nationality s; dob := dob s; address := address s;
     emailOtpSent := emailOtpSent s; emailOtpVerified := emailOtpVerified s;
     phoneOtpSent := phoneOtpSent s; phoneOtpVerified := v;
     primaryService := primaryService s; legalDomain := legalDomain s;
     caseDetails := caseDetails s; consultMode := consultMode s;
     preferredDate := preferredDate s; timeWindow := timeWindow s; urgency := urgency s;
     pastLegalAction := pastLegalAction s; files := files s |}.

Definition setPrimaryService (v : PrimaryService) (s : State) : State :=
  {| step := step s; name := name s; gender := gender s; email := email s;
     emailOtp := emailOtp s; phone := phone s; phoneOtp := phoneOtp s;
     nationality := nationality s; dob := dob s; address := address s;
     emailOtpSent := emailOtpSent s; emailOtpVerified := emailOtpVerified s;
     phoneOtpSent := phoneOtpSent s; phoneOtpVerified := phoneOtpVerified s;
     primaryService := v; legalDomain := legalDomain s; caseDetails := caseDetails s;
     consultMode := consultMode s; preferredDate := preferredDate s;
     timeWindow := timeWindow s; urgency := urgency s;
     pastLegalAction := pastLegalAction s; files := files s |}.

Definition setLegalDomain (v : LegalDomain) (s : State) : State :=
  {| step := step s; name := name s; gender := gender s; email := email s;
     emailOtp := emailOtp s; phone := phone s; phoneOtp := phoneOtp s;
     nationality := nationality s; dob := dob s; address := address s;
     emailOtpSent := emailOtpSent s; emailOtpVerified := emailOtpVerified s;
     phoneOtpSent := phoneOtpSent s; phoneOtpVerified := phoneOtpVerified s;
     primaryService := primaryService s; legalDomain := v; caseDetails := caseDetails s;
     consultMode := consultMode s; preferredDate := preferredDate s;
     timeWindow := timeWindow s; urgency := urgency s;
     pastLegalAction := pastLegalAction s; files := files s |}.

Definition setCaseDetails (v : jsstring) (s : State) : State :=
  {| step := step s; name := name s; gender := gender s; email := email s;
     emailOtp := emailOtp s; phone := phone s; phoneOtp := phoneOtp s;
     nationality := nationality s; dob := dob s; address := address s;
     emailOtpSent := emailOtpSent s; emailOtpVerified := emailOtpVerified s;
     phoneOtpSent := phoneOtpSent s; phoneOtpVerified := phoneOtpVerified s;
     primaryService := primaryService s; legalDomain := legalDomain s; caseDetails := v;
     consultMode := consultMode s; preferredDate := preferredDate s;
     timeWindow := timeWindow s; urgency := urgency s;
     pastLegalAction := pastLegalAction s; files := files s |}.

Definition setConsultMode (v : ConsultMode) (s : State) : State :=
  {| step := step s; name := name s; gender := gender s; email := email s;
     emailOtp := emailOtp s; phone := phone s; phoneOtp := phoneOtp s;
     nationality := nationality s; dob := dob s; address := address s;
     emailOtpSent := emailOtpSent s; emailOtpVerified := emailOtpVerified s;
     phoneOtpSent := phoneOtpSent s; phoneOtpVerified := phoneOtpVerified s;
     primaryService := primaryService s; legalDomain := legalDomain s;
     caseDetails := caseDetails s; consultMode := v; preferredDate := preferredDate s;
     timeWindow := timeWindow s; urgency := urgency s;
     pastLegalAction := pastLegalAction s; files := files s |}.

Definition setPreferredDate (v : jsstring) (s : State) : State :=
  {| step := step s; name := name s; gender := gender s; email := email s;
     emailOtp := emailOtp s; phone := phone s; phoneOtp := phoneOtp s;
     nationality := nationality s; dob := dob s; address := address s;
     emailOtpSent := emailOtpSent s; emailOtpVerified := emailOtpVerified s;
     phoneOtpSent := phoneOtpSent s; phoneOtpVerified := phoneOtpVerified s;
     primaryService := primaryService s; legalDomain := legalDomain s;
     caseDetails := caseDetails s; consultMode := consultMode s; preferredDate := v;
     timeWindow := timeWindow s; urgency := urgency s;
     pastLegalAction := pastLegalAction s; files := files s |}.

Definition setTimeWindow (v : jsstring) (s : State) : State :=
  {| step := step s; name := name s; gender := gender s; email := email s;
     emailOtp := emailOtp s; phone := phone s; phoneOtp := phoneOtp s;
     nationality := nationality s; dob := dob s; address := address s;
     emailOtpSent := emailOtpSent s; emailOtpVerified := emailOtpVerified s;
     phoneOtpSent := phoneOtpSent s; phoneOtpVerified := phoneOtpVerified s;
     primaryService := primaryService s; legalDomain := legalDomain s;
     caseDetails := caseDetails s; consultMode := consultMode s;
     preferredDate := preferredDate s; timeWindow := v; urgency := urgency s;
     pastLegalAction := pastLegalAction s; files := files s |}.

Definition setUrgency (v : Urgency) (s : State) : State :=
  {| step := step s; name := name s; gender := gender s; email := email s;
     emailOtp := emailOtp s; phone := phone s; phoneOtp := phoneOtp s;
     nationality := nationality s; dob := dob s; address := address s;
     emailOtpSent := emailOtpSent s; emailOtpVerified := emailOtpVerified s;
     phoneOtpSent := phoneOtpSent s; phoneOtpVerified := phoneOtpVerified s;
     primaryService := primaryService s; legalDomain := legalDomain s;
     caseDetails := caseDetails s; consultMode := consultMode s;
     preferredDate := preferredDate s; timeWindow := timeWindow s; urgency := v;
     pastLegalAction := pastLegalAction s; files := files s |}.

Definition setPastLegalAction (v : PastLegalAction) (s : State) : State :=
  {| step := step s; name := name s; gender := gender s; email := email s;
     emailOtp := emailOtp s; phone := phone s; phoneOtp := phoneOtp s;
     nationality := nationality s; dob := dob s; address := address s;
     emailOtpSent := emailOtpSent s; emailOtpVerified := emailOtpVerified s;
     phoneOtpSent := phoneOtpSent s; phoneOtpVerified := phoneOtpVerified s;
     primaryService := primaryService s; legalDomain := legalDomain s;
     caseDetails := caseDetails s; consultMode := consultMode s;
     preferredDate := preferredDate s; timeWindow := timeWindow s; urgency := urgency s;
     pastLegalAction := v; files := files s |}.

Definition setFiles (v : list File) (s : State) : State :=
  {| step := step s; name := name s; gender := gender s; email := email s;
     emailOtp := emailOtp s; phone := phone s; phoneOtp := phoneOtp s;
     nationality := nationality s; dob := dob s; address := address s;
     emailOtpSent := emailOtpSent s; emailOtpVerified := emailOtpVerified s;
     phoneOtpSent := phoneOtpSent s; phoneOtpVerified := phoneOtpVerified s;
     primaryService := primaryService s; legalDomain := legalDomain s;
     caseDetails := caseDetails s; consultMode := consultMode s;
     preferredDate := preferredDate s; timeWindow := timeWindow s; urgency := urgency s;
     pastLegalAction := pastLegalAction s; files := v |}.

(** The initial values of the hooks. *)
Definition initialState : State :=
  {| step := 1;
     name := []; gender := gender_empty; email := []; emailOtp := [];
     phone := []; phoneOtp := []; nationality := []; dob := []; address := [];
     emailOtpSent := false; emailOtpVerified := false;
     phoneOtpSent := false; phoneOtpVerified := false;
     primaryService := service_empty; legalDomain := domain_empty;
     caseDetails := []; consultMode := mode_empty;
     preferredDate := str "2026-02-20";
     timeWindow := str "12:00 PM - 02:00 PM";
     urgency := standard_24_48;
     pastLegalAction := action_empty;
     files := [] |}.

(** *** Derived values *)

Definition isCounsel (s : State) : bool :=
  strictEq (PrimaryService_str (primaryService s)) (str "get_counsel").

Definition total (s : State) : Z :=
  (base FEES + urgency_fee FEES (urgency s))%Z.

Definition canGoStep2 (s : State) : bool :=
  let basicOk :=
    (1 <? length (trim (name s)))%nat &&
    strictNe (Gender_str (gender s)) [] &&
    includes (email s) (str "@") &&
    (8 <=? length (trim (phone s)))%nat &&
    (1 <? length (trim (nationality s)))%nat &&
    (5 <? length (trim (address s)))%nat in
  let emailOk := emailOtpVerified s || negb (emailOtpSent s) in
  let phoneOk := phoneOtpVerified s || negb (phoneOtpSent s) in
  basicOk && emailOk && phoneOk.

Definition counselReady (s : State) : bool :=
  if negb (isCounsel s) then false
  else
    strictNe (LegalDomain_str (legalDomain s)) [] &&
    (10 <=? length (trim (caseDetails s)))%nat &&
    strictNe (ConsultMode_str (consultMode s)) [] &&
    strictNe (preferredDate s) [] &&
    strictNe (timeWindow s) [] &&
    strictNe (Urgency_str (urgency s)) [] &&
    strictNe (PastLegalAction_str (pastLegalAction s)) [].

Definition readyToBook (s : State) : bool :=
  if strictEq (PrimaryService_str (primaryService s)) [] then false
  else if isCounsel s then counselReady s
  else true.

(** *** Events

    One constructor per event handler of the markup, with the value the
    browser hands to it. *)
Inductive Event : Type :=
| ChangeName (v : jsstring)
| ChangeGender (g : Gender)
| ChangeEmail (v : jsstring)
| ChangeEmailOtp (v : jsstring)
| ClickSendEmailOtp
| ClickVerifyEmailOtp
| ChangePhone (v : jsstring)
| ChangePhoneOtp (v : jsstring)
| ClickSendPhoneOtp
| ClickVerifyPhoneOtp
| ChangeNationality (v : jsstring)
| ChangeDob (v : jsstring)
| ChangeAddress (v : jsstring)
| ClickContinueToServices
| ClickService (k : PrimaryService)
| ClickLegalDomain (d : LegalDomain)
| ChangeCaseDetails (v : jsstring)
| DropFiles (fl : option (list File))
| PickFiles (fl : option (list File))
| ClickRemove (idx : nat)
| ClickConsultMode (m : ConsultMode)
| ChangePreferredDate (v : jsstring)
| ChangeTimeWindow (v : jsstring)
| ClickUrgency (u : Urgency)
| ClickPastLegalAction (v : PastLegalAction)
| ClickBackCounsel
| ClickPayAndBook
| ClickBackOther
| ClickContinueOther.

(** [handleDrop], after [preventDefault]. *)
Definition handleDrop (fl : option (list File)) (s : State) : State :=
  let dropped := arrayFrom fl in
  if (length dropped =? 0)%nat then s else setFiles (files s ++ dropped) s.

(** The [onChange] of the hidden file input. *)
Definition handlePick (fl : option (list File)) (s : State) : State :=
  let chosen := arrayFrom fl in
  if (length chosen =? 0)%nat then s else setFiles (files s ++ chosen) s.

(** The [onClick] of the Remove button of row [idx]. *)
Definition handleRemove (idx : nat) (s : State) : State :=
  setFiles (filter_i (fun _ i => negb (i =? idx)%nat) (files s)) s.

(** What the handler of an event does to the state. *)
Definition handler (ev : Event) (s : State) : State :=
  match ev with
  | ChangeName v => setName v s
  | ChangeGender g => setGender g s
  | ChangeEmail v => setEmail v s
  | ChangeEmailOtp v => setEmailOtp v s
  | ClickSendEmailOtp =>
      setEmailOtp [] (setEmailOtpVerified false (setEmailOtpSent true s))
  | ClickVerifyEmailOtp =>
      setEmailOtpVerified (4 <=? length (trim (emailOtp s)))%nat s
  | ChangePhone v => setPhone v s
  | ChangePhoneOtp v => setPhoneOtp v s
  | ClickSendPhoneOtp =>
      setPhoneOtp [] (setPhoneOtpVerified false (setPhoneOtpSent true s))
  | ClickVerifyPhoneOtp =>
      setPhoneOtpVerified (4 <=? length (trim (phoneOtp s)))%nat s
  | ChangeNationality v => setNationality v s
  | ChangeDob v => setDob v s
  | ChangeAddress v => setAddress v s
  | ClickContinueToServices => setStep 2 s
  | ClickService k => setPrimaryService k s
  | ClickLegalDomain d => setLegalDomain d s
  | ChangeCaseDetails v => setCaseDetails v s
  | DropFiles fl => handleDrop fl s
  | PickFiles fl => handlePick fl s
  | ClickRemove idx => handleRemove idx s
  | ClickConsultMode m => setConsultMode m s
  | ChangePreferredDate v => setPreferredDate v s
  | ChangeTimeWindow v => setTimeWindow v s
  | ClickUrgency u => setUrgency u s
  | ClickPastLegalAction v => setPastLegalAction v s
  | ClickBackCounsel => setPrimaryService service_empty s
  | ClickPayAndBook => s
  | ClickBackOther => setPrimaryService service_empty s
  | ClickContinueOther => s
  end.

Definition memb {A : Type} (eqb : A -> A -> bool) (x : A) (l : list A) : bool :=
  existsb (eqb x) l.

Definition PrimaryService_eqb (a b : PrimaryService) : bool :=
  strictEq (PrimaryService_str a) (PrimaryService_str b).
Definition LegalDomain_eqb (a b : LegalDomain) : bool :=
  strictEq (LegalDomain_str a) (LegalDomain_str b).
Definition Gender_eqb (a b : Gender) : bool :=
  strictEq (Gender_str a) (Gender_str b).
Definition ConsultMode_eqb (a b : ConsultMode) : bool :=
  strictEq (ConsultMode_str a) (ConsultMode_str b).
Definition PastLegalAction_eqb (a b : PastLegalAction) : bool :=
  strictEq (PastLegalAction_str a) (PastLegalAction_str b).

(** Whether the control of an event exists in the rendered page, is not
    [disabled], and can hand this value to its handler: a button rendered
    from a table exists for the entries of the table only, a [select]
    yields one of its options, a Remove button exists for each row of the
    file list.  Text inputs accept any string. *)
Definition enabled (ev : Event) (s : State) : bool :=
  match ev with
  | ChangeGender g => memb Gender_eqb g GENDER_OPTIONS
  | ChangeEmailOtp _ => emailOtpSent s
  | ClickVerifyEmailOtp => emailOtpSent s
  | ChangePhoneOtp _ => phoneOtpSent s
  | ClickVerifyPhoneOtp => phoneOtpSent s
  | ClickContinueToServices => canGoStep2 s
  | ClickService k => memb PrimaryService_eqb k PRIMARY_SERVICES
  | ClickLegalDomain d => memb LegalDomain_eqb d LEGAL_DOMAINS
  | ClickRemove idx => (idx <? length (files s))%nat
  | ClickConsultMode m => memb ConsultMode_eqb m CONSULT_MODES
  | ChangeTimeWindow v => memb strictEq v TIME_WINDOWS
  | ClickPastLegalAction v => memb PastLegalAction_eqb v PAST_ACTIONS
  | _ => true
  end.

(** Whether the section that holds the control is expanded.  [Collapse]
    only switches CSS classes (zero height, zero opacity): its children
    stay in the document, so this is a property of the layout and not of
    the handlers. *)
Definition expanded (ev : Event) (s : State) : bool :=
  match ev with
  | ClickService _ => (step s =? 2)%Z
  | ClickLegalDomain _ | ChangeCaseDetails _ | DropFiles _ | PickFiles _
  | ClickRemove _ | ClickConsultMode _ | ChangePreferredDate _
  | ChangeTimeWindow _ | ClickUrgency _ | ClickPastLegalAction _ =>
      (step s =? 2)%Z && isCounsel s
  | ClickBackCounsel | ClickPayAndBook =>
      (step s =? 2)%Z && isCounsel s && readyToBook s
  | ClickBackOther | ClickContinueOther =>
      (step s =? 2)%Z
      && (strictNe (PrimaryService_str (primaryService s)) [] && negb (isCounsel s))
  | _ => true
  end.

(** One user action: the handler runs when the control is enabled. *)
Definition dispatch (ev : Event) (s : State) : option State :=
  if enabled ev s then Some (handler ev s) else None.

(** A sequence of user actions, oldest first. *)
Fixpoint run (evs : list Event) (s : State) : option State :=
  match evs with
  | [] => Some s
  | ev :: rest =>
      match dispatch ev s with
      | Some s' => run rest s'
      | None => None
      end
  end.

(** The same, the user acting on expanded sections only. *)
Fixpoint runExpanded (evs : list Event) (s : State) : option State :=
  match evs with
  | [] => Some s
  | ev :: rest =>
      if expanded ev s then
        match dispatch ev s with
        | Some s' => runExpanded rest s'
        | None => None
        end
      else None
  end.

(** The states the page can be in. *)
Definition reachable (s : State) : Prop :=
  exists evs, run evs initialState = Some s.

(** *** Readings of the specification and example states *)

(** The gate of step 1 as the specification words it: the lengths are the
    lengths of the fields as entered.  The code unit 64 is "@". *)
Definition canAdvanceToStep2_spec (s : State) : Prop :=
  (1 < length (name s) /\ gender s <> gender_empty /\ In 64%N (email s)
   /\ 8 <= length (phone s) /\ 1 < length (nationality s) /\ 5 < length (address s))
  /\ (emailOtpVerified s = true \/ emailOtpSent s = false)
  /\ (phoneOtpVerified s = true \/ phoneOtpSent s = false).

(** The same gate with the lengths taken after [trim], as the page has it. *)
Definition canAdvanceToStep2_trimmed (s : State) : Prop :=
  (1 < length (trim (name s)) /\ gender s <> gender_empty /\ In 64%N (email s)
   /\ 8 <= length (trim (phone s)) /\ 1 < length (trim (nationality s))
   /\ 5 < length (trim (address s)))
  /\ (emailOtpVerified s = true \/ emailOtpSent s = false)
  /\ (phoneOtpVerified s = true \/ phoneOtpSent s = false).

(** Counsel readiness as the specification words it. *)
Definition counselReady_spec (s : State) : Prop :=
  primaryService s = get_counsel /\ legalDomain s <> domain_empty
  /\ 10 <= length (caseDetails s) /\ consultMode s <> mode_empty
  /\ preferredDate s <> [] /\ timeWindow s <> []
  /\ Urgency_str (urgency s) <> [] /\ pastLegalAction s <> action_empty.

(** Counsel readiness with the length of the case details taken after
    [trim]. *)
Definition counselReady_trimmed (s : State) : Prop :=
  primaryService s = get_counsel /\ legalDomain s <> domain_empty
  /\ 10 <= length (trim (caseDetails s)) /\ consultMode s <> mode_empty
  /\ preferredDate s <> [] /\ timeWindow s <> []
  /\ Urgency_str (urgency s) <> [] /\ pastLegalAction s <> action_empty.

(** The outcome of Verify as the specification words it. *)
Definition verified_spec (code : jsstring) : bool := 4 <=? length code.

(** Every field but [primaryService] is the same in [s] and [s']. *)
Definition sameButService (s s' : State) : Prop :=
  step s' = step s /\ name s' = name s /\ gender s' = gender s
  /\ email s' = email s /\ emailOtp s' = emailOtp s
  /\ phone s' = phone s /\ phoneOtp s' = phoneOtp s
  /\ nationality s' = nationality s /\ dob s' = dob s /\ address s' = address s
  /\ emailOtpSent s' = emailOtpSent s /\ emailOtpVerified s' = emailOtpVerified s
  /\ phoneOtpSent s' = phoneOtpSent s /\ phoneOtpVerified s' = phoneOtpVerified s
  /\ legalDomain s' = legalDomain s /\ caseDetails s' = caseDetails s
  /\ consultMode s' = consultMode s /\ preferredDate s' = preferredDate s
  /\ timeWindow s' = timeWindow s /\ urgency s' = urgency s
  /\ pastLegalAction s' = pastLegalAction s /\ files s' = files s.

(** The applicant of the specification's example, nothing else touched. *)
Definition exampleApplicantEvents : list Event :=
  [ChangeName (str "Jo"); ChangeGender male; ChangeEmail (str "a@b.com");
   ChangePhone (str "12345678"); ChangeNationality (str "IN");
   ChangeAddress (str "123 Main St City")].

Definition exampleApplicant : State :=
  setAddress (str "123 Main St City")
    (setNationality (str "IN")
      (setPhone (str "12345678")
        (setEmail (str "a@b.com")
          (setGender male (setName (str "Jo") initialState))))).

(** The same applicant with a name of two spaces. *)
Definition paddedApplicant : State := setName (str "  ") exampleApplicant.

(** A counsel request complete but for its case details, ten spaces. *)
Definition blankCaseRequest : State :=
  setPastLegalAction yes
    (setConsultMode audio
      (setCaseDetails (str "          ")
        (setLegalDomain dom_family (setPrimaryService get_counsel initialState)))).

(** A code sent by email, four spaces typed into the OTP input. *)
Definition blankOtpEntered : State :=
  handler (ChangeEmailOtp (str "    ")) (handler ClickSendEmailOtp initialState).

(** The counsel flow chosen on the untouched form. *)
Definition counselChosen : State := handler (ClickService get_counsel) initialState.

(** Is the event an explicit Continue? *)
Definition isContinue (ev : Event) : bool :=
  match ev with
  | ClickContinueToServices => true
  | _ => false
  end.

Definition isSendEmail (ev : Event) : bool :=
  match ev with
  | ClickSendEmailOtp => true
  | _ => false
  end.

Definition isSendPhone (ev : Event) : bool :=
  match ev with
  | ClickSendPhoneOtp => true
  | _ => false
  end.

(** Number of entries of a file list that carry the name [n]. *)
Definition countName (n : jsstring) (l : list File) : nat :=
  length (filter (fun f => strictEq (file_name f) n) l).

(** *** Helpers of the markup *)

(** An argument of [cn]: a string, [false], [null] or [undefined]. *)
Inductive ClassValue : Type :=
| Class (c : jsstring)
| CFalse
| CNull
| CUndefined.

(** [Boolean(x)]: of these values only a non-empty string is truthy. *)
Definition truthy (x : ClassValue) : bool :=
  match x with
  | Class [] => false
  | Class (_ :: _) => true
  | CFalse | CNull | CUndefined => false
  end.

(** How [join] prints an element: [null] and [undefined] as the empty
    string, anything else by its string conversion. *)
Definition joinItem (x : ClassValue) : jsstring :=
  match x with
  | Class c => c
  | CFalse => str "false"
  | CNull | CUndefined => []
  end.

(** [arr.join(sep)] *)
Fixpoint join (sep : jsstring) (l : list ClassValue) : jsstring :=
  match l with
  | [] => []
  | x :: r =>
      match r with
      | [] => joinItem x
      | _ :: _ => joinItem x ++ sep ++ join sep r
      end
  end.

(** [cn(...classes)] *)
Definition cn (classes : list ClassValue) : jsstring :=
  join (str " ") (filter truthy classes).

(** A row of [PRIMARY_SERVICES]. *)
Record ServiceEntry : Type := mkEntry {
  key : PrimaryService;
  label : jsstring;
  desc : jsstring
}.

(** [PRIMARY_SERVICES] with its labels and descriptions. *)
Definition PRIMARY_SERVICE_ENTRIES : list ServiceEntry :=
  [ mkEntry get_counsel (str "Get a Counsel") (str "Book a lawyer consultation slot.");
    mkEntry legal_drafting (str "Legal Drafting") (str "Contracts, notices, agreements, etc.");
    mkEntry liaison_lawyers (str "Liaison Lawyers") (str "On-ground coordination and filings.");
    mkEntry courtroom_tech (str "Courtroom Tech") (str "Hearing support, e-briefs, video setups.");
    mkEntry advocate_vigilance (str "Advocate Vigilance")
      (str "Track status, follow-ups, compliance.");
    mkEntry document_review (str "Document Review") (str "Review and risk highlighting.");
    mkEntry legal_assessment (str "Legal Assessment")
      (str "Initial assessment + recommended path.") ].

(** [serviceLabel(key)]: the label of the first row with this key, and
    "Service" when [find] returns [undefined]. *)
Definition serviceLabel (k : PrimaryService) : jsstring :=
  match find (fun e => PrimaryService_eqb (key e) k) PRIMARY_SERVICE_ENTRIES with
  | Some e => label e
  | None => str "Service"
  end.

(** The options a selector highlights: those with [value === o.value]. *)
Definition highlighted {A : Type} (eqb : A -> A -> bool) (value : A) (options : list A)
  : list A :=
  filter (fun o => eqb value o) options.

(** The three urgency buttons. *)
Definition URGENCY_BUTTONS : list Urgency := [standard_24_48; within_6; within_2].

Definition Urgency_eqb (a b : Urgency) : bool :=
  strictEq (Urgency_str a) (Urgency_str b).

(** Does a string consist of white space only? *)
Definition allWhite (s : jsstring) : bool := forallb isWhiteSpace s.

(** The files the user handed to the page along a sequence of events. *)
Definition offered (evs : list Event) : list File :=
  flat_map (fun ev =>
              match ev with
              | DropFiles fl | PickFiles fl => arrayFrom fl
              | _ => []
              end) evs.

Definition isVerifyEmail (ev : Event) : bool :=
  match ev with
  | ClickVerifyEmailOtp => true
  | _ => false
  end.

Definition isVerifyPhone (ev : Event) : bool :=
  match ev with
  | ClickVerifyPhoneOtp => true
  | _ => false
  end.

(** The fields of step 2 hold their initial values. *)
Definition step2Untouched (s : State) : Prop :=
  primaryService s = service_empty /\ legalDomain s = domain_empty
  /\ caseDetails s = [] /\ consultMode s = mode_empty
  /\ preferredDate s = preferredDate initialState
  /\ timeWindow s = timeWindow initialState
  /\ urgency s = standard_24_48 /\ pastLegalAction s = action_empty
  /\ files s = [].

(** * Properties *)

(** ** Strings and arrays *)

Section JSFacts.

Lemma strictEq_refl (a : jsstring) : strictEq a a = true.
Proof.
  induction a as [|x a IH]; simpl; [reflexivity|].
  now rewrite N.eqb_refl, IH.
Qed.

Lemma strictEq_eq (a b : jsstring) : strictEq a b = true <-> a = b.
Proof.
  split.
  - revert b; induction a as [|x a IH]; intros [|y b] H; simpl in H;
      try discriminate; [reflexivity|].
    apply andb_true_iff in H as [Hx Hr].
    apply N.eqb_eq in Hx. apply IH in Hr. now subst.
  - intros ->. apply strictEq_refl.
Qed.

Lemma strictNe_ne (a b : jsstring) : strictNe a b = true <-> a <> b.
Proof.
  unfold strictNe. rewrite negb_true_iff.
  split.
  - intros H E. apply strictEq_eq in E. congruence.
  - intros H. destruct (strictEq a b) eqn:E; [|reflexivity].
    apply strictEq_eq in E. contradiction.
Qed.

Lemma trimStart_length (s : jsstring) : length (trimStart s) <= length s.
Proof.
  induction s as [|c s IH]; simpl; [lia|].
  destruct (isWhiteSpace c); simpl; lia.
Qed.

Lemma trim_length (s : jsstring) : length (trim s) <= length s.
Proof.
  unfold trim, trimEnd.
  rewrite length_rev.
  etransitivity; [apply trimStart_length|].
  rewrite length_rev. apply trimStart_length.
Qed.

Lemma includes_unit (s : jsstring) (c : N) : includes s [c] = true <-> In c s.
Proof.
  induction s as [|x s IH]; simpl.
  - split; [discriminate|tauto].
  - rewrite orb_true_iff, IH, andb_true_r, N.eqb_eq.
    split; intros [H|H]; auto.
Qed.

Lemma filterFrom_above {A : Type} (l : list A) (k m : nat) :
  k < m -> filterFrom (fun _ i => negb (i =? k)) m l = l.
Proof.
  revert m; induction l as [|x l IH]; intros m Hm; cbn [filterFrom]; [reflexivity|].
  assert (E : (m =? k) = false) by (apply Nat.eqb_neq; lia).
  rewrite E. cbn [negb]. f_equal. apply IH. lia.
Qed.

Lemma filterFrom_drop {A : Type} (l : list A) (k idx : nat) :
  filterFrom (fun _ i => negb (i =? k + idx)) k l = firstn idx l ++ skipn (S idx) l.
Proof.
  revert k idx; induction l as [|x l IH]; intros k idx; cbn [filterFrom].
  - now destruct idx.
  - destruct idx as [|idx].
    + rewrite Nat.add_0_r, Nat.eqb_refl. cbn [negb firstn skipn app].
      apply filterFrom_above. lia.
    + assert (E : (k =? k + S idx) = false) by (apply Nat.eqb_neq; lia).
      rewrite E. cbn [negb firstn skipn app]. f_equal.
      replace (k + S idx) with (S k + idx) by lia.
      apply IH.
Qed.

Lemma filter_i_drop {A : Type} (l : list A) (idx : nat) :
  filter_i (fun _ i => negb (i =? idx)) l = firstn idx l ++ skipn (S idx) l.
Proof. unfold filter_i. apply (filterFrom_drop l 0 idx). Qed.

Lemma nth_error_drop {A : Type} (l : list A) (idx j : nat) :
  nth_error (firstn idx l ++ skipn (S idx) l) j =
  if j <? idx then nth_error l j else nth_error l (S j).
Proof.
  revert idx j; induction l as [|x l IH]; intros idx j.
  - rewrite firstn_nil, skipn_nil. simpl.
    destruct (j <? idx); now destruct j.
  - destruct idx as [|idx]; simpl.
    + reflexivity.
    + destruct j as [|j]; simpl; [reflexivity|].
      rewrite IH. reflexivity.
Qed.

End JSFacts.

(** ** Enumerations against their string values *)

Ltac enum_cases :=
  split; intros H; vm_compute in H |- *; congruence.

Section EnumFacts.

Lemma isCounsel_iff (s : State) : isCounsel s = true <-> primaryService s = get_counsel.
Proof.
  unfold isCounsel. destruct (primaryService s); enum_cases.
Qed.

Lemma isCounsel_false (s : State) :
  isCounsel s = false <-> primaryService s <> get_counsel.
Proof.
  rewrite <- isCounsel_iff. destruct (isCounsel s); split; congruence.
Qed.

Lemma service_set_iff (k : PrimaryService) :
  strictEq (PrimaryService_str k) [] = true <-> k = service_empty.
Proof. destruct k; enum_cases. Qed.

Lemma gender_set_iff (g : Gender) :
  strictNe (Gender_str g) [] = true <-> g <> gender_empty.
Proof. destruct g; enum_cases. Qed.

Lemma domain_set_iff (d : LegalDomain) :
  strictNe (LegalDomain_str d) [] = true <-> d <> domain_empty.
Proof. destruct d; enum_cases. Qed.

Lemma mode_set_iff (m : ConsultMode) :
  strictNe (ConsultMode_str m) [] = true <-> m <> mode_empty.
Proof. destruct m; enum_cases. Qed.

Lemma action_set_iff (v : PastLegalAction) :
  strictNe (PastLegalAction_str v) [] = true <-> v <> action_empty.
Proof. destruct v; enum_cases. Qed.

Lemma urgency_always_set (u : Urgency) : strictNe (Urgency_str u) [] = true.
Proof. now destruct u. Qed.

Lemma time_window_option_set (v : jsstring) :
  memb strictEq v TIME_WINDOWS = true -> strictNe v [] = true.
Proof.
  unfold memb. intros H. apply existsb_exists in H as [w [Hin Heq]].
  apply strictEq_eq in Heq. subst w.
  simpl in Hin. repeat destruct Hin as [<-|Hin]; try reflexivity. contradiction.
Qed.

End EnumFacts.

(** ** The gates *)

Ltac gate_props :=
  repeat rewrite andb_true_iff;
  repeat rewrite orb_true_iff;
  repeat rewrite negb_true_iff;
  repeat rewrite Nat.ltb_lt;
  repeat rewrite Nat.leb_le.

(** C1 (as the page has it): [canGoStep2] is true exactly when the six
    applicant constraints hold, the lengths of name, phone, nationality and
    address taken after [trim], and each verification is non-blocking
    (verified, or no code sent).  Whenever it is true the constraints also
    hold for the lengths as entered.  The events of the example lead to the
    example state, where the gate is true with no OTP sent. *)
Theorem C1_canGoStep2_trimmed :
  (forall s, canGoStep2 s = true <-> canAdvanceToStep2_trimmed s)
  /\ (forall s, canGoStep2 s = true -> canAdvanceToStep2_spec s)
  /\ run exampleApplicantEvents initialState = Some exampleApplicant
  /\ emailOtpSent exampleApplicant = false
  /\ phoneOtpSent exampleApplicant = false
  /\ canGoStep2 exampleApplicant = true.
Proof.
  assert (Hiff : forall s, canGoStep2 s = true <-> canAdvanceToStep2_trimmed s).
  { intros s. unfold canGoStep2, canAdvanceToStep2_trimmed.
    change (str "@") with [64%N].
    cbv zeta. gate_props.
    rewrite gender_set_iff, includes_unit. tauto. }
  split; [exact Hiff|]. split.
  - intros s H. apply Hiff in H.
    destruct H as [(Hn & Hg & He & Hp & Hna & Ha) Hv].
    pose proof (trim_length (name s)). pose proof (trim_length (phone s)).
    pose proof (trim_length (nationality s)). pose proof (trim_length (address s)).
    unfold canAdvanceToStep2_spec. repeat split; try assumption; try lia; tauto.
  - repeat split; reflexivity.
Qed.

(** C1, the claim as stated, fails: with a name of two spaces every
    constraint of the specification holds on the fields as entered, no OTP
    was sent, and the gate is false. *)
Lemma C1_padded_name_blocks :
  canAdvanceToStep2_spec paddedApplicant /\ canGoStep2 paddedApplicant = false.
Proof.
  split; [|reflexivity].
  unfold canAdvanceToStep2_spec; simpl.
  repeat split; try lia; try discriminate; auto.
Qed.

(** C2: the total is [FEES.base] plus the surcharge of the urgency tier and
    of nothing else: two states with the same urgency have the same total;
    the base is 1500, the table is 0, 500, 1000, and the three totals are
    1500, 2000 and 2500. *)
Theorem C2_total_by_urgency (s s' : State) :
  urgency s = urgency s' ->
  total s = total s'
  /\ total s = (base FEES + urgency_fee FEES (urgency s))%Z
  /\ base FEES = 1500%Z
  /\ urgency_fee FEES standard_24_48 = 0%Z
  /\ urgency_fee FEES within_6 = 500%Z
  /\ urgency_fee FEES within_2 = 1000%Z
  /\ total s = match urgency s with
               | standard_24_48 => 1500
               | within_6 => 2000
               | within_2 => 2500
               end%Z.
Proof.
  intros H. unfold total. rewrite H.
  repeat split. rewrite <- H. now destruct (urgency s).
Qed.

Lemma C2_total_by_urgency_witness :
  total (setUrgency within_6 exampleApplicant) = 2000%Z
  /\ total (setUrgency within_6 blankCaseRequest) = 2000%Z.
Proof.
  pose proof (C2_total_by_urgency (setUrgency within_6 exampleApplicant)
                (setUrgency within_6 blankCaseRequest) eq_refl) as H.
  split.
  - exact (proj2 (proj2 (proj2 (proj2 (proj2 (proj2 H)))))).
  - reflexivity.
Defined.

(** C3 (as the page has it): [counselReady] is true exactly when the
    counsel flow is active, legal domain, consultation mode and past legal
    action are set, preferred date and time window are non-empty, urgency
    is set, and the case details have at least 10 code units after [trim].
    Whenever it is true the conditions also hold for the case details as
    entered.  The value depends on these eight fields only; it is false
    while one of legal domain, consultation mode or past legal action is
    unset or the case details are shorter than 10.  When the counsel flow
    is active and exactly one of these four is missing, the other
    conditions holding in the state before, the button of any option of
    the missing selector (or typing case details of at least 10 code units
    after [trim]) is enabled and its handler makes [counselReady] true. *)
Theorem C3_counselReady_trimmed :
  (forall s, counselReady s = true <-> counselReady_trimmed s)
  /\ (forall s, counselReady s = true -> counselReady_spec s)
  /\ (forall s s',
        primaryService s = primaryService s' -> legalDomain s = legalDomain s' ->
        caseDetails s = caseDetails s' -> consultMode s = consultMode s' ->
        preferredDate s = preferredDate s' -> timeWindow s = timeWindow s' ->
        urgency s = urgency s' -> pastLegalAction s = pastLegalAction s' ->
        counselReady s = counselReady s')
  /\ (forall s,
        legalDomain s = domain_empty \/ consultMode s = mode_empty
        \/ pastLegalAction s = action_empty \/ length (caseDetails s) < 10 ->
        counselReady s = false)
  /\ (forall s d,
        primaryService s = get_counsel -> legalDomain s = domain_empty ->
        10 <= length (trim (caseDetails s)) -> consultMode s <> mode_empty ->
        preferredDate s <> [] -> timeWindow s <> [] ->
        pastLegalAction s <> action_empty ->
        In d LEGAL_DOMAINS ->
        enabled (ClickLegalDomain d) s = true
        /\ counselReady s = false
        /\ counselReady (handler (ClickLegalDomain d) s) = true)
  /\ (forall s m,
        primaryService s = get_counsel -> legalDomain s <> domain_empty ->
        10 <= length (trim (caseDetails s)) -> consultMode s = mode_empty ->
        preferredDate s <> [] -> timeWindow s <> [] ->
        pastLegalAction s <> action_empty ->
        In m CONSULT_MODES ->
        enabled (ClickConsultMode m) s = true
        /\ counselReady s = false
        /\ counselReady (handler (ClickConsultMode m) s) = true)
  /\ (forall s v,
        primaryService s = get_counsel -> legalDomain s <> domain_empty ->
        10 <= length (trim (caseDetails s)) -> consultMode s <> mode_empty ->
        preferredDate s <> [] -> timeWindow s <> [] ->
        pastLegalAction s = action_empty ->
        In v PAST_ACTIONS ->
        enabled (ClickPastLegalAction v) s = true
        /\ counselReady s = false
        /\ counselReady (handler (ClickPastLegalAction v) s) = true)
  /\ (forall s v,
        primaryService s = get_counsel -> legalDomain s <> domain_empty ->
        length (caseDetails s) < 10 -> consultMode s <> mode_empty ->
        preferredDate s <> [] -> timeWindow s <> [] ->
        pastLegalAction s <> action_empty ->
        10 <= length (trim v) ->
        enabled (ChangeCaseDetails v) s = true
        /\ counselReady s = false
        /\ counselReady (handler (ChangeCaseDetails v) s) = true).
Proof.
  assert (Hiff : forall s, counselReady s = true <-> counselReady_trimmed s).
  { intros s. unfold counselReady, counselReady_trimmed.
    destruct (isCounsel s) eqn:Hc; cbn [negb].
    - apply isCounsel_iff in Hc. gate_props.
      rewrite domain_set_iff, mode_set_iff, action_set_iff.
      repeat rewrite strictNe_ne. tauto.
    - apply isCounsel_false in Hc. split; [discriminate|tauto]. }
  assert (Hfalse : forall s,
             legalDomain s = domain_empty \/ consultMode s = mode_empty
             \/ pastLegalAction s = action_empty \/ length (caseDetails s) < 10 ->
             counselReady s = false).
  { intros s H. destruct (counselReady s) eqn:E; [|reflexivity].
    apply Hiff in E. destruct E as (_ & Hd & Hl & Hm & _ & _ & _ & Ha).
    pose proof (trim_length (caseDetails s)).
    destruct H as [H|[H|[H|H]]]; try contradiction; lia. }
  split; [exact Hiff|]. split.
  { intros s H. apply Hiff in H.
    destruct H as (Hs & Hd & Hl & Hrest).
    pose proof (trim_length (caseDetails s)).
    unfold counselReady_spec. repeat split; try tauto; lia. }
  split.
  { intros s s' E1 E2 E3 E4 E5 E6 E7 E8.
    unfold counselReady, isCounsel. now rewrite E1, E2, E3, E4, E5, E6, E7, E8. }
  split; [exact Hfalse|].
  assert (Hu : forall s, Urgency_str (urgency s) <> []).
  { intros s. apply strictNe_ne, urgency_always_set. }
  split; [|split; [|split]].
  - intros s d Hs Hd Hc Hm Hp Ht Ha Hin.
    split; [|split; [apply Hfalse; tauto|]].
    + cbn [enabled]. simpl in Hin.
      repeat destruct Hin as [<-|Hin]; try reflexivity; contradiction.
    + apply Hiff. unfold counselReady_trimmed.
      cbn [handler setLegalDomain primaryService legalDomain caseDetails consultMode
           preferredDate timeWindow urgency pastLegalAction].
      repeat split; try assumption; try apply Hu.
      simpl in Hin. repeat destruct Hin as [<-|Hin]; try discriminate; contradiction.
  - intros s m Hs Hd Hc Hm Hp Ht Ha Hin.
    split; [|split; [apply Hfalse; tauto|]].
    + cbn [enabled]. simpl in Hin.
      repeat destruct Hin as [<-|Hin]; try reflexivity; contradiction.
    + apply Hiff. unfold counselReady_trimmed.
      cbn [handler setConsultMode primaryService legalDomain caseDetails consultMode
           preferredDate timeWindow urgency pastLegalAction].
      repeat split; try assumption; try apply Hu.
      simpl in Hin. repeat destruct Hin as [<-|Hin]; try discriminate; contradiction.
  - intros s v Hs Hd Hc Hm Hp Ht Ha Hin.
    split; [|split; [apply Hfalse; tauto|]].
    + cbn [enabled]. simpl in Hin.
      repeat destruct Hin as [<-|Hin]; try reflexivity; contradiction.
    + apply Hiff. unfold counselReady_trimmed.
      cbn [handler setPastLegalAction primaryService legalDomain caseDetails consultMode
           preferredDate timeWindow urgency pastLegalAction].
      repeat split; try assumption; try apply Hu.
      simpl in Hin. repeat destruct Hin as [<-|Hin]; try discriminate; contradiction.
  - intros s v Hs Hd Hc Hm Hp Ht Ha Hlen.
    split; [reflexivity|split; [apply Hfalse; tauto|]].
    apply Hiff. unfold counselReady_trimmed.
    cbn [handler setCaseDetails primaryService legalDomain caseDetails consultMode
         preferredDate timeWindow urgency pastLegalAction].
    repeat split; try assumption; apply Hu.
Qed.

(** C3, the claim as stated, fails: a counsel request whose case details
    are ten spaces meets every condition of the specification, and is not
    ready. *)
Lemma C3_blank_details_not_ready :
  counselReady_spec blankCaseRequest /\ counselReady blankCaseRequest = false.
Proof.
  split; [|reflexivity].
  unfold counselReady_spec; simpl.
  repeat split; try lia; discriminate.
Qed.

(** C4: [readyToBook] is false with no primary service, equals
    [counselReady] in the counsel flow, and is true for each of the six
    other services whatever the other fields hold; clicking one of the six
    makes it true at once. *)
Theorem C4_readyToBook_cases (s : State) :
  readyToBook s = match primaryService s with
                  | service_empty => false
                  | get_counsel => counselReady s
                  | _ => true
                  end
  /\ (primaryService s = service_empty -> readyToBook s = false)
  /\ (primaryService s = get_counsel -> readyToBook s = counselReady s)
  /\ (primaryService s <> service_empty -> primaryService s <> get_counsel ->
      readyToBook s = true)
  /\ (forall k, In k PRIMARY_SERVICES -> k <> get_counsel ->
      enabled (ClickService k) s = true
      /\ readyToBook (handler (ClickService k) s) = true).
Proof.
  assert (H : readyToBook s = match primaryService s with
                              | service_empty => false
                              | get_counsel => counselReady s
                              | _ => true
                              end).
  { unfold readyToBook, isCounsel. now destruct (primaryService s). }
  split; [exact H|]. rewrite H. repeat split.
  - now intros ->.
  - now intros ->.
  - intros H1 H2. destruct (primaryService s); congruence.
  - simpl in H0. repeat destruct H0 as [<-|H0]; try reflexivity; contradiction.
  - simpl in H0. unfold readyToBook, isCounsel.
    repeat destruct H0 as [<-|H0]; try reflexivity; contradiction.
Qed.

(** C5 (as the page has it), for the email and the phone channel alike:
    Send sets sent to true, verified to false and empties the entered code,
    whatever verified was; Verify sets verified to the truth value of
    "the entered code has at least 4 code units after [trim]", so a code of
    fewer than 4 code units gives false and a code with 4 or more after
    trimming gives true. *)
Theorem C5_otp_send_verify_trimmed (s : State) :
  (emailOtpSent (handler ClickSendEmailOtp s) = true
   /\ emailOtpVerified (handler ClickSendEmailOtp s) = false
   /\ emailOtp (handler ClickSendEmailOtp s) = [])
  /\ (phoneOtpSent (handler ClickSendPhoneOtp s) = true
      /\ phoneOtpVerified (handler ClickSendPhoneOtp s) = false
      /\ phoneOtp (handler ClickSendPhoneOtp s) = [])
  /\ emailOtpVerified (handler ClickVerifyEmailOtp s) = (4 <=? length (trim (emailOtp s)))
  /\ phoneOtpVerified (handler ClickVerifyPhoneOtp s) = (4 <=? length (trim (phoneOtp s)))
  /\ (length (emailOtp s) < 4 -> emailOtpVerified (handler ClickVerifyEmailOtp s) = false)
  /\ (length (phoneOtp s) < 4 -> phoneOtpVerified (handler ClickVerifyPhoneOtp s) = false)
  /\ (4 <= length (trim (emailOtp s)) ->
      emailOtpVerified (handler ClickVerifyEmailOtp s) = true)
  /\ (4 <= length (trim (phoneOtp s)) ->
      phoneOtpVerified (handler ClickVerifyPhoneOtp s) = true).
Proof.
  pose proof (trim_length (emailOtp s)). pose proof (trim_length (phoneOtp s)).
  cbn [handler setEmailOtp setEmailOtpVerified setEmailOtpSent
       setPhoneOtp setPhoneOtpVerified setPhoneOtpSent
       emailOtpSent emailOtpVerified emailOtp phoneOtpSent phoneOtpVerified phoneOtp].
  repeat split; intros;
    first [ apply Nat.leb_le; lia | apply Nat.leb_gt; lia ].
Qed.

(** C5, the claim as stated, fails: after Send, with four spaces typed,
    Verify is enabled, the entered code has length 4, and verified is set
    to false. *)
Lemma C5_blank_code_not_verified :
  run [ClickSendEmailOtp; ChangeEmailOtp (str "    ")] initialState = Some blankOtpEntered
  /\ enabled ClickVerifyEmailOtp blankOtpEntered = true
  /\ verified_spec (emailOtp blankOtpEntered) = true
  /\ emailOtpVerified (handler ClickVerifyEmailOtp blankOtpEntered) = false.
Proof. repeat split. Qed.

(** ** The attachment list *)

(** C7: dropping and picking files both append the new files, in their
    order, after the existing entries, which keep their positions; nothing
    is deduplicated (the entries with a given name add up).  Remove at
    row [idx] deletes the entry at that position: the entries before it
    keep their positions and every later entry moves down by one. *)
Theorem C7_attachments_append_remove (s : State) (fl : option (list File)) (idx : nat) :
  files (handler (DropFiles fl) s) = files s ++ arrayFrom fl
  /\ files (handler (PickFiles fl) s) = files s ++ arrayFrom fl
  /\ (forall j, nth_error (files s ++ arrayFrom fl) j =
                if j <? length (files s) then nth_error (files s) j
                else nth_error (arrayFrom fl) (j - length (files s)))
  /\ length (files s ++ arrayFrom fl) = length (files s) + length (arrayFrom fl)
  /\ (forall n, countName n (files s ++ arrayFrom fl) =
                countName n (files s) + countName n (arrayFrom fl))
  /\ files (handler (ClickRemove idx) s) = firstn idx (files s) ++ skipn (S idx) (files s)
  /\ (forall j, nth_error (files (handler (ClickRemove idx) s)) j =
                if j <? idx then nth_error (files s) j else nth_error (files s) (S j))
  /\ (enabled (ClickRemove idx) s = true ->
      S (length (files (handler (ClickRemove idx) s))) = length (files s)).
Proof.
  assert (Happ : forall l, (if length (arrayFrom fl) =? 0 then s
                            else setFiles (files s ++ arrayFrom fl) s) = l ->
                           files l = files s ++ arrayFrom fl).
  { intros l <-. destruct (arrayFrom fl) as [|f r]; simpl;
      [now rewrite app_nil_r | reflexivity]. }
  assert (Hrm : files (handler (ClickRemove idx) s)
                = firstn idx (files s) ++ skipn (S idx) (files s)).
  { cbn [handler handleRemove setFiles files]. apply filter_i_drop. }
  split; [now apply Happ|]. split; [now apply Happ|]. split.
  { intros j. destruct (j <? length (files s)) eqn:E.
    - apply Nat.ltb_lt in E. now apply nth_error_app1.
    - apply Nat.ltb_ge in E. now apply nth_error_app2. }
  split; [apply length_app|]. split.
  { intros n. unfold countName. now rewrite filter_app, length_app. }
  split; [exact Hrm|]. split.
  { intros j. rewrite Hrm. apply nth_error_drop. }
  intros He. cbn [enabled] in He. apply Nat.ltb_lt in He.
  rewrite Hrm, length_app, length_firstn, length_skipn. lia.
Qed.

Lemma C7_attachments_append_remove_witness :
  S (length (files (handler (ClickRemove 0)
       (handler (PickFiles (Some [mkFile (str "a.pdf") 1; mkFile (str "a.pdf") 2]))
          initialState)))) = 2.
Proof.
  pose proof (C7_attachments_append_remove
                (handler (PickFiles (Some [mkFile (str "a.pdf") 1; mkFile (str "a.pdf") 2]))
                   initialState) None 0) as H.
  exact (proj2 (proj2 (proj2 (proj2 (proj2 (proj2 (proj2 H)))))) eq_refl).
Defined.

(** ** Back *)

(** C9: each of the two Back buttons sets [primaryService] to the empty
    value, after which [readyToBook] is false, and leaves every other
    field as it was: step, applicant fields, OTP states, counsel details
    and the file list. *)
Theorem C9_back_clears_service_only (s : State) :
  (primaryService (handler ClickBackCounsel s) = service_empty
   /\ readyToBook (handler ClickBackCounsel s) = false
   /\ sameButService s (handler ClickBackCounsel s))
  /\ (primaryService (handler ClickBackOther s) = service_empty
      /\ readyToBook (handler ClickBackOther s) = false
      /\ sameButService s (handler ClickBackOther s))
  /\ enabled ClickBackCounsel s = true
  /\ enabled ClickBackOther s = true.
Proof. unfold sameButService. repeat split. Qed.

(** ** Reachable states *)

Section Reachability.

Lemma run_app (l1 l2 : list Event) (s : State) :
  run (l1 ++ l2) s = match run l1 s with
                     | Some s1 => run l2 s1
                     | None => None
                     end.
Proof.
  revert s; induction l1 as [|ev l1 IH]; intros s; simpl; [reflexivity|].
  destruct (dispatch ev s); [apply IH|reflexivity].
Qed.

(** A property kept by every enabled action holds along every run. *)
Lemma run_invariant (P : State -> Prop) :
  (forall ev s s', dispatch ev s = Some s' -> P s -> P s') ->
  forall evs s s', run evs s = Some s' -> P s -> P s'.
Proof.
  intros Hstep evs; induction evs as [|ev evs IH]; intros s s' Hrun HP; simpl in Hrun.
  - now inversion Hrun; subst.
  - destruct (dispatch ev s) as [s1|] eqn:E; [|discriminate].
    eapply IH; eauto.
Qed.

(** Acting on expanded sections only is a special case of [run]. *)
Lemma runExpanded_run (evs : list Event) (s s' : State) :
  runExpanded evs s = Some s' -> run evs s = Some s'.
Proof.
  revert s; induction evs as [|ev evs IH]; intros s H; simpl in *; [exact H|].
  destruct (expanded ev s); [|discriminate].
  destruct (dispatch ev s); [now apply IH|discriminate].
Qed.

Lemma dispatch_some (ev : Event) (s s' : State) :
  dispatch ev s = Some s' -> enabled ev s = true /\ s' = handler ev s.
Proof.
  unfold dispatch. destruct (enabled ev s); [|discriminate].
  intros H; inversion H; auto.
Qed.

End Reachability.

(** *** What each handler leaves alone *)

Ltac by_handler ev :=
  destruct ev; try reflexivity;
  cbn [handler]; unfold handleDrop, handlePick;
  match goal with
  | |- context [if ?b then _ else _] => destruct b; reflexivity
  end.

Section Frames.

Lemma handler_step (ev : Event) (s : State) :
  step (handler ev s) = if isContinue ev then 2%Z else step s.
Proof. by_handler ev. Qed.

Lemma handler_emailOtpSent (ev : Event) (s : State) :
  emailOtpSent (handler ev s) = isSendEmail ev || emailOtpSent s.
Proof. by_handler ev. Qed.

Lemma handler_phoneOtpSent (ev : Event) (s : State) :
  phoneOtpSent (handler ev s) = isSendPhone ev || phoneOtpSent s.
Proof. by_handler ev. Qed.

Lemma handler_emailOtpVerified (ev : Event) (s : State) :
  emailOtpVerified (handler ev s) =
  match ev with
  | ClickSendEmailOtp => false
  | ClickVerifyEmailOtp => 4 <=? length (trim (emailOtp s))
  | _ => emailOtpVerified s
  end.
Proof. by_handler ev. Qed.

Lemma handler_phoneOtpVerified (ev : Event) (s : State) :
  phoneOtpVerified (handler ev s) =
  match ev with
  | ClickSendPhoneOtp => false
  | ClickVerifyPhoneOtp => 4 <=? length (trim (phoneOtp s))
  | _ => phoneOtpVerified s
  end.
Proof. by_handler ev. Qed.

Lemma handler_timeWindow (ev : Event) (s : State) :
  timeWindow (handler ev s) =
  match ev with
  | ChangeTimeWindow v => v
  | _ => timeWindow s
  end.
Proof. by_handler ev. Qed.

Lemma handler_urgency (ev : Event) (s : State) :
  urgency (handler ev s) =
  match ev with
  | ClickUrgency u => u
  | _ => urgency s
  end.
Proof. by_handler ev. Qed.

(** The sent flag of a channel records whether Send was ever clicked. *)
Lemma sent_records_send (evs : list Event) (s s' : State) :
  run evs s = Some s' ->
  emailOtpSent s' = existsb isSendEmail evs || emailOtpSent s
  /\ phoneOtpSent s' = existsb isSendPhone evs || phoneOtpSent s.
Proof.
  revert s; induction evs as [|ev evs IH]; intros s H; simpl in H.
  - inversion H; subst. simpl. auto.
  - destruct (dispatch ev s) as [s1|] eqn:E; [|discriminate].
    apply dispatch_some in E as [_ ->].
    apply IH in H as [H1 H2].
    rewrite handler_emailOtpSent in H1. rewrite handler_phoneOtpSent in H2.
    simpl. rewrite H1, H2.
    split.
    + destruct (isSendEmail ev), (existsb isSendEmail evs); reflexivity.
    + destruct (isSendPhone ev), (existsb isSendPhone evs); reflexivity.
Qed.

End Frames.

(** ** Invariants of the reachable states *)

(** C6: in every state reached from the initial state by enabled actions,
    for the email and for the phone channel, verified implies sent.  Verify
    is enabled exactly when sent is true, and Send, which sets sent, sets
    verified to false. *)
Theorem C6_verified_implies_sent (s : State) :
  reachable s ->
  (emailOtpVerified s = true -> emailOtpSent s = true)
  /\ (phoneOtpVerified s = true -> phoneOtpSent s = true)
  /\ enabled ClickVerifyEmailOtp s = emailOtpSent s
  /\ enabled ClickVerifyPhoneOtp s = phoneOtpSent s
  /\ (emailOtpSent (handler ClickSendEmailOtp s) = true
      /\ emailOtpVerified (handler ClickSendEmailOtp s) = false)
  /\ (phoneOtpSent (handler ClickSendPhoneOtp s) = true
      /\ phoneOtpVerified (handler ClickSendPhoneOtp s) = false).
Proof.
  intros [evs Hrun].
  assert (Hinv : (emailOtpVerified s = true -> emailOtpSent s = true)
                 /\ (phoneOtpVerified s = true -> phoneOtpSent s = true)).
  { pattern s.
    apply (run_invariant _) with (evs := evs) (s := initialState); [|exact Hrun|].
    - clear. intros ev s s' Hd [He Hp].
      apply dispatch_some in Hd as [Hen ->].
      rewrite handler_emailOtpVerified, handler_emailOtpSent,
        handler_phoneOtpVerified, handler_phoneOtpSent.
      split.
      + destruct ev; cbn [isSendEmail orb]; try exact He; try discriminate.
        intros _. exact Hen.
      + destruct ev; cbn [isSendPhone orb]; try exact Hp; try discriminate.
        intros _. exact Hen.
    - split; discriminate. }
  destruct Hinv as [He Hp].
  repeat split; assumption.
Qed.

Lemma C6_verified_implies_sent_witness :
  emailOtpSent
    (handler ClickVerifyEmailOtp
       (handler (ChangeEmailOtp (str "1234")) (handler ClickSendEmailOtp initialState)))
  = true.
Proof.
  refine (proj1 (C6_verified_implies_sent
                   (handler ClickVerifyEmailOtp
                      (handler (ChangeEmailOtp (str "1234"))
                         (handler ClickSendEmailOtp initialState))) _) eq_refl).
  exists [ClickSendEmailOtp; ChangeEmailOtp (str "1234"); ClickVerifyEmailOtp].
  reflexivity.
Defined.

Lemma continue_was_clicked (evs : list Event) :
  forall s0 s, run evs s0 = Some s -> step s0 <> 2%Z -> step s = 2%Z ->
  exists before after s1,
    evs = before ++ ClickContinueToServices :: after
    /\ run before s0 = Some s1
    /\ canGoStep2 s1 = true.
Proof.
  induction evs as [|ev evs IH]; intros s0 s Hrun H0 H2; simpl in Hrun.
  - inversion Hrun; subst. contradiction.
  - destruct (dispatch ev s0) as [s'|] eqn:E; [|discriminate].
    apply dispatch_some in E as [Hen ->].
    destruct (isContinue ev) eqn:Hc.
    + destruct ev; try discriminate.
      exists [], evs, s0. repeat split. exact Hen.
    + assert (Hs : step (handler ev s0) <> 2%Z)
        by (rewrite handler_step, Hc; exact H0).
      destruct (IH _ _ Hrun Hs H2) as (before & after & s1 & -> & Hb & Hg).
      exists (ev :: before), after, s1. repeat split; [|exact Hg].
      simpl. unfold dispatch. now rewrite Hen.
Qed.

(** C8: when a state reached from the initial state by enabled actions has
    step 2, the actions contain a Continue click that was taken in a state
    where [canGoStep2] was true.  Continue is enabled exactly when
    [canGoStep2] is true, and no other action changes the step. *)
Theorem C8_step2_needs_continue (evs : list Event) (s : State) :
  run evs initialState = Some s ->
  step s = 2%Z ->
  (exists before after s1,
      evs = before ++ ClickContinueToServices :: after
      /\ run before initialState = Some s1
      /\ canGoStep2 s1 = true)
  /\ (forall s0, enabled ClickContinueToServices s0 = canGoStep2 s0)
  /\ (forall ev s0, isContinue ev = false -> step (handler ev s0) = step s0)
  /\ step initialState = 1%Z.
Proof.
  intros Hrun H2. split.
  - apply (continue_was_clicked evs initialState s); auto. discriminate.
  - repeat split. intros ev s0 Hc. now rewrite handler_step, Hc.
Qed.

Lemma C8_step2_needs_continue_witness :
  exists before after s1,
    exampleApplicantEvents ++ [ClickContinueToServices]
    = before ++ ClickContinueToServices :: after
    /\ run before initialState = Some s1
    /\ canGoStep2 s1 = true.
Proof.
  assert (Hrun : run (exampleApplicantEvents ++ [ClickContinueToServices]) initialState
                 = Some (setStep 2 exampleApplicant)) by (vm_compute; reflexivity).
  exact (proj1 (C8_step2_needs_continue
                  (exampleApplicantEvents ++ [ClickContinueToServices])
                  (setStep 2 exampleApplicant) Hrun eq_refl)).
Defined.

(** C10: preferred date, time window and urgency start as "2026-02-20",
    "12:00 PM - 02:00 PM" and "standard_24_48"; the time-window select
    yields one of its five non-empty options and every urgency value is a
    non-empty tier.  So in every reachable state the time window and the
    urgency are non-empty, and once the counsel flow is chosen on the
    untouched form [counselReady] is decided by legal domain, case
    details, consultation mode and past legal action alone. *)
Theorem C10_time_window_urgency_set (s : State) :
  reachable s ->
  (timeWindow s <> [] /\ Urgency_str (urgency s) <> [])
  /\ (strictNe (timeWindow s) [] = true /\ strictNe (Urgency_str (urgency s)) [] = true)
  /\ (preferredDate initialState = str "2026-02-20"
      /\ timeWindow initialState = str "12:00 PM - 02:00 PM"
      /\ urgency initialState = standard_24_48)
  /\ (forall ev s0,
        timeWindow (handler ev s0)
        = match ev with ChangeTimeWindow v => v | _ => timeWindow s0 end
        /\ urgency (handler ev s0)
           = match ev with ClickUrgency u => u | _ => urgency s0 end)
  /\ (forall v s0, enabled (ChangeTimeWindow v) s0 = true -> In v TIME_WINDOWS /\ v <> [])
  /\ (forall u, Urgency_str u <> [])
  /\ run [ClickService get_counsel] initialState = Some counselChosen
  /\ (forall d cd m a,
        counselReady
          (setPastLegalAction a
             (setConsultMode m (setCaseDetails cd (setLegalDomain d counselChosen))))
        = strictNe (LegalDomain_str d) [] && (10 <=? length (trim cd))
          && strictNe (ConsultMode_str m) [] && strictNe (PastLegalAction_str a) []).
Proof.
  intros [evs Hrun].
  assert (Htw : strictNe (timeWindow s) [] = true).
  { pattern s.
    apply (run_invariant _) with (evs := evs) (s := initialState); [|exact Hrun|reflexivity].
    clear. intros ev s s' Hd Hs.
    apply dispatch_some in Hd as [Hen ->].
    rewrite handler_timeWindow.
    destruct ev; try exact Hs.
    cbn [enabled] in Hen. now apply time_window_option_set. }
  pose proof (urgency_always_set (urgency s)) as Hu.
  split; [split; now apply strictNe_ne|].
  split; [now split|].
  split; [repeat split|].
  split; [intros ev s0; split; [apply handler_timeWindow|apply handler_urgency]|].
  split.
  { intros v s0 Hen. cbn [enabled] in Hen.
    split.
    - unfold memb in Hen. apply existsb_exists in Hen as [w [Hin Heq]].
      apply strictEq_eq in Heq. now subst.
    - apply strictNe_ne. now apply time_window_option_set. }
  split; [intros u; apply strictNe_ne, urgency_always_set|].
  split; [reflexivity|].
  intros d cd m a. unfold counselReady, isCounsel.
  cbn [primaryService legalDomain caseDetails consultMode preferredDate timeWindow
       urgency pastLegalAction setPastLegalAction setConsultMode setCaseDetails
       setLegalDomain counselChosen handler setPrimaryService initialState].
  change (strictEq (PrimaryService_str get_counsel) (str "get_counsel")) with true.
  change (strictNe (str "2026-02-20") []) with true.
  change (strictNe (str "12:00 PM - 02:00 PM") []) with true.
  change (strictNe (Urgency_str standard_24_48) []) with true.
  cbn [negb]. now rewrite !andb_true_r.
Qed.

Lemma C10_time_window_urgency_set_witness :
  timeWindow (handler (ChangeTimeWindow (str "06:00 PM - 08:00 PM")) counselChosen) <> []
  /\ Urgency_str
       (urgency (handler (ChangeTimeWindow (str "06:00 PM - 08:00 PM")) counselChosen)) <> [].
Proof.
  refine (proj1 (C10_time_window_urgency_set
                   (handler (ChangeTimeWindow (str "06:00 PM - 08:00 PM")) counselChosen) _)).
  exists [ClickService get_counsel; ChangeTimeWindow (str "06:00 PM - 08:00 PM")].
  reflexivity.
Defined.

(** ** Helpers of the markup *)

Section ClassNames.

Lemma join_cons (sep : jsstring) (x : ClassValue) (r : list ClassValue) :
  r <> [] -> join sep (x :: r) = joinItem x ++ sep ++ join sep r.
Proof. destruct r; [contradiction|reflexivity]. Qed.

Lemma join_app (sep : jsstring) (l1 l2 : list ClassValue) :
  l1 <> [] -> l2 <> [] -> join sep (l1 ++ l2) = join sep l1 ++ sep ++ join sep l2.
Proof.
  induction l1 as [|x l1 IH]; intros H1 H2; [contradiction|].
  destruct l1 as [|y l1].
  - cbn [app]. rewrite join_cons by assumption. reflexivity.
  - cbn [app] in IH |- *.
    rewrite join_cons by discriminate.
    rewrite IH by (assumption || discriminate).
    rewrite (join_cons sep x (y :: l1)) by discriminate.
    now rewrite <- !app_assoc.
Qed.

Lemma truthy_item (x : ClassValue) : truthy x = true -> joinItem x <> [].
Proof. destruct x as [[|c r]| | |]; simpl; intros H; discriminate. Qed.

Lemma join_truthy_nil (sep : jsstring) (l : list ClassValue) :
  Forall (fun x => truthy x = true) l -> join sep l = [] -> l = [].
Proof.
  intros Hall Hj. destruct l as [|x r]; [reflexivity|]. exfalso.
  inversion Hall as [|? ? Hx Hr]; subst.
  apply truthy_item in Hx.
  destruct r as [|y r]; cbn [join] in Hj.
  - contradiction.
  - apply app_eq_nil in Hj as [Hj _]. contradiction.
Qed.

Lemma filter_truthy_all (l : list ClassValue) :
  Forall (fun x => truthy x = true) (filter truthy l).
Proof. apply Forall_forall. intros x Hx. now apply filter_In in Hx. Qed.

Lemma filter_truthy_nil (l : list ClassValue) :
  filter truthy l = [] <-> Forall (fun x => truthy x = false) l.
Proof.
  induction l as [|x l IH]; simpl.
  - split; auto.
  - destruct (truthy x) eqn:E.
    + split; [discriminate|]. intros H. inversion H; congruence.
    + rewrite IH. split; intros H; [now constructor|now inversion H].
Qed.

Lemma cn_nil_filter (l : list ClassValue) : cn l = [] <-> filter truthy l = [].
Proof.
  unfold cn. split.
  - apply join_truthy_nil, filter_truthy_all.
  - now intros ->.
Qed.

(** X1: [cn] returns the empty string exactly when every argument is
    falsy ([false], [null], [undefined] or the empty string). *)
Theorem cn_empty_iff (l : list ClassValue) :
  cn l = [] <-> Forall (fun x => truthy x = false) l.
Proof. now rewrite cn_nil_filter, filter_truthy_nil. Qed.

(** X2: [cn] of two argument lists put together is the two results joined
    by one space, and just the other result when one of them is empty: no
    space is added at either end or doubled. *)
Theorem cn_app (l1 l2 : list ClassValue) :
  cn (l1 ++ l2) = match cn l1, cn l2 with
                  | [], c2 => c2
                  | c1, [] => c1
                  | c1, c2 => c1 ++ str " " ++ c2
                  end.
Proof.
  destruct (cn l1) as [|a c1] eqn:E1.
  - apply cn_nil_filter in E1. unfold cn. now rewrite filter_app, E1.
  - destruct (cn l2) as [|b c2] eqn:E2.
    + apply cn_nil_filter in E2. unfold cn in *.
      now rewrite filter_app, E2, app_nil_r.
    + unfold cn in *. rewrite filter_app, join_app.
      * now rewrite E1, E2.
      * intros H. rewrite H in E1. discriminate.
      * intros H. rewrite H in E2. discriminate.
Qed.

(** X3: a falsy argument has no effect on the result of [cn], wherever it
    stands; in particular [false] is never printed. *)
Theorem cn_ignores_falsy (l1 l2 : list ClassValue) (x : ClassValue) :
  truthy x = false -> cn (l1 ++ x :: l2) = cn (l1 ++ l2).
Proof.
  intros H. unfold cn. rewrite !filter_app. cbn [filter]. now rewrite H.
Qed.

Lemma cn_ignores_falsy_witness :
  cn [Class (str "w-full"); CFalse; Class (str "px-3"); CUndefined]
  = str "w-full px-3".
Proof.
  exact (eq_trans (cn_ignores_falsy [Class (str "w-full")]
                     [Class (str "px-3"); CUndefined] CFalse eq_refl) eq_refl).
Defined.

End ClassNames.

Section Labels.

Lemma entries_keys : map key PRIMARY_SERVICE_ENTRIES = PRIMARY_SERVICES.
Proof. reflexivity. Qed.

(** X4: [serviceLabel] returns the label of the row of [PRIMARY_SERVICES]
    with the given key, for every row; it falls back to "Service" exactly
    for the empty key; and different keys get different labels. *)
Theorem serviceLabel_lookup :
  (forall e, In e PRIMARY_SERVICE_ENTRIES -> serviceLabel (key e) = label e)
  /\ (forall k, serviceLabel k = str "Service" <-> k = service_empty)
  /\ (forall k k', serviceLabel k = serviceLabel k' -> k = k').
Proof.
  split; [|split].
  - intros e He. simpl in He.
    repeat destruct He as [<-|He]; try reflexivity. contradiction.
  - intros k. destruct k; split; intros H; try reflexivity;
      try discriminate H; vm_compute in H; discriminate H.
  - intros k k' H.
    destruct k, k'; try reflexivity; vm_compute in H; discriminate H.
Qed.

(** X5: a selector highlights at most one option: the selected one when a
    value is set, none when the value is empty; an urgency button is
    always highlighted. *)
Theorem single_highlight (s : State) :
  highlighted PrimaryService_eqb (primaryService s) PRIMARY_SERVICES
  = match primaryService s with service_empty => [] | k => [k] end
  /\ highlighted LegalDomain_eqb (legalDomain s) LEGAL_DOMAINS
     = match legalDomain s with domain_empty => [] | d => [d] end
  /\ highlighted ConsultMode_eqb (consultMode s) CONSULT_MODES
     = match consultMode s with mode_empty => [] | m => [m] end
  /\ highlighted PastLegalAction_eqb (pastLegalAction s) PAST_ACTIONS
     = match pastLegalAction s with action_empty => [] | v => [v] end
  /\ highlighted Urgency_eqb (urgency s) URGENCY_BUTTONS = [urgency s].
Proof.
  repeat split.
  - now destruct (primaryService s).
  - now destruct (legalDomain s).
  - now destruct (consultMode s).
  - now destruct (pastLegalAction s).
  - now destruct (urgency s).
Qed.

End Labels.

(** ** White space and the gates *)

Section WhiteSpace.

Lemma trimStart_white (s : jsstring) : allWhite s = true -> trimStart s = [].
Proof.
  induction s as [|c s IH]; simpl; [reflexivity|].
  intros H. apply andb_true_iff in H as [Hc Hs]. rewrite Hc. now apply IH.
Qed.

Lemma trimStart_app (s t : jsstring) :
  trimStart (s ++ t) = if allWhite s then trimStart t else trimStart s ++ t.
Proof.
  induction s as [|c s IH]; simpl; [reflexivity|].
  destruct (isWhiteSpace c); simpl; [exact IH|reflexivity].
Qed.

Lemma allWhite_rev (s : jsstring) : allWhite (rev s) = allWhite s.
Proof.
  unfold allWhite. induction s as [|c s IH]; simpl; [reflexivity|].
  rewrite forallb_app, IH. simpl. rewrite andb_true_r. apply andb_comm.
Qed.

Lemma trimEnd_app_white (s w : jsstring) :
  allWhite w = true -> trimEnd (s ++ w) = trimEnd s.
Proof.
  intros H. unfold trimEnd. rewrite rev_app_distr, trimStart_app.
  now rewrite allWhite_rev, H.
Qed.

Lemma trim_white (s : jsstring) : allWhite s = true -> trim s = [].
Proof. intros H. unfold trim. now rewrite trimStart_white. Qed.

Lemma trim_padded (w1 s w2 : jsstring) :
  allWhite w1 = true -> allWhite w2 = true -> trim (w1 ++ s ++ w2) = trim s.
Proof.
  intros H1 H2. unfold trim.
  rewrite trimStart_app, H1, trimStart_app.
  destruct (allWhite s) eqn:Hs.
  - now rewrite (trimStart_white w2), (trimStart_white s).
  - now apply trimEnd_app_white.
Qed.

(** X6: white space around an entry never changes a gate: padding the
    name, phone, nationality or address leaves [canGoStep2] as it was,
    padding the case details leaves [counselReady] as it was, and padding
    the entered code leaves the outcome of Verify as it was. *)
Theorem gates_ignore_padding (s : State) (w1 w2 : jsstring) :
  allWhite w1 = true -> allWhite w2 = true ->
  canGoStep2 (handler (ChangeName (w1 ++ name s ++ w2)) s) = canGoStep2 s
  /\ canGoStep2 (handler (ChangePhone (w1 ++ phone s ++ w2)) s) = canGoStep2 s
  /\ canGoStep2 (handler (ChangeNationality (w1 ++ nationality s ++ w2)) s) = canGoStep2 s
  /\ canGoStep2 (handler (ChangeAddress (w1 ++ address s ++ w2)) s) = canGoStep2 s
  /\ counselReady (handler (ChangeCaseDetails (w1 ++ caseDetails s ++ w2)) s)
     = counselReady s
  /\ emailOtpVerified
       (handler ClickVerifyEmailOtp (handler (ChangeEmailOtp (w1 ++ emailOtp s ++ w2)) s))
     = emailOtpVerified (handler ClickVerifyEmailOtp s)
  /\ phoneOtpVerified
       (handler ClickVerifyPhoneOtp (handler (ChangePhoneOtp (w1 ++ phoneOtp s ++ w2)) s))
     = phoneOtpVerified (handler ClickVerifyPhoneOtp s).
Proof.
  intros H1 H2.
  repeat split;
    unfold canGoStep2, counselReady, isCounsel; cbn -[trim str strictEq strictNe includes];
    now rewrite trim_padded.
Qed.

Lemma gates_ignore_padding_witness :
  canGoStep2 (handler (ChangeName (str "  " ++ str "Jo" ++ str " ")) exampleApplicant)
  = true.
Proof.
  exact (eq_trans
           (proj1 (gates_ignore_padding exampleApplicant (str "  ") (str " ")
                     eq_refl eq_refl))
           eq_refl).
Defined.

(** X7: an entry of white space only counts as missing: a blank name,
    phone, nationality or address keeps [canGoStep2] false, blank case
    details keep [counselReady] false, and Verify on a blank code sets
    verified to false. *)
Theorem blank_entries_block (s : State) :
  (allWhite (name s) = true \/ allWhite (phone s) = true
   \/ allWhite (nationality s) = true \/ allWhite (address s) = true ->
   canGoStep2 s = false)
  /\ (allWhite (caseDetails s) = true -> counselReady s = false)
  /\ (allWhite (emailOtp s) = true ->
      emailOtpVerified (handler ClickVerifyEmailOtp s) = false)
  /\ (allWhite (phoneOtp s) = true ->
      phoneOtpVerified (handler ClickVerifyPhoneOtp s) = false).
Proof.
  repeat split.
  - intros H. unfold canGoStep2. cbv zeta.
    destruct H as [H|[H|[H|H]]]; rewrite (trim_white _ H); cbn [length Nat.ltb Nat.leb];
      repeat first [rewrite andb_false_r | rewrite andb_false_l]; reflexivity.
  - intros H. unfold counselReady. rewrite (trim_white _ H). cbn [length Nat.leb].
    destruct (isCounsel s); cbn [negb]; [|reflexivity].
    now rewrite andb_false_r.
  - intros H. cbn [handler setEmailOtpVerified emailOtpVerified].
    now rewrite (trim_white _ H).
  - intros H. cbn [handler setPhoneOtpVerified phoneOtpVerified].
    now rewrite (trim_white _ H).
Qed.

End WhiteSpace.

(** ** Histories *)

Section MoreFrames.

Lemma handler_emailOtp (ev : Event) (s : State) :
  emailOtp (handler ev s) =
  match ev with
  | ChangeEmailOtp v => v
  | ClickSendEmailOtp => []
  | _ => emailOtp s
  end.
Proof. by_handler ev. Qed.

Lemma handler_phoneOtp (ev : Event) (s : State) :
  phoneOtp (handler ev s) =
  match ev with
  | ChangePhoneOtp v => v
  | ClickSendPhoneOtp => []
  | _ => phoneOtp s
  end.
Proof. by_handler ev. Qed.

Lemma handler_legalDomain (ev : Event) (s : State) :
  legalDomain (handler ev s) =
  match ev with
  | ClickLegalDomain d => d
  | _ => legalDomain s
  end.
Proof. by_handler ev. Qed.

Lemma handler_consultMode (ev : Event) (s : State) :
  consultMode (handler ev s) =
  match ev with
  | ClickConsultMode m => m
  | _ => consultMode s
  end.
Proof. by_handler ev. Qed.

Lemma handler_pastLegalAction (ev : Event) (s : State) :
  pastLegalAction (handler ev s) =
  match ev with
  | ClickPastLegalAction v => v
  | _ => pastLegalAction s
  end.
Proof. by_handler ev. Qed.

Lemma append_files (fl : option (list File)) (s : State) :
  files (if length (arrayFrom fl) =? 0 then s
         else setFiles (files s ++ arrayFrom fl) s)
  = files s ++ arrayFrom fl.
Proof.
  destruct (arrayFrom fl) as [|f r]; simpl; [now rewrite app_nil_r|reflexivity].
Qed.

Lemma handler_files (ev : Event) (s : State) :
  files (handler ev s) =
  match ev with
  | DropFiles fl | PickFiles fl => files s ++ arrayFrom fl
  | ClickRemove idx => firstn idx (files s) ++ skipn (S idx) (files s)
  | _ => files s
  end.
Proof.
  destruct ev; try reflexivity.
  - apply append_files.
  - apply append_files.
  - cbn [handler handleRemove setFiles files]. apply filter_i_drop.
Qed.

Lemma setFiles_same (s : State) : setFiles (files s) s = s.
Proof. now destruct s. Qed.

Lemma existsb_send_email (evs : list Event) :
  existsb isSendEmail evs = true <-> In ClickSendEmailOtp evs.
Proof.
  rewrite existsb_exists. split.
  - intros [ev [Hin He]]. now destruct ev.
  - intros H. now exists ClickSendEmailOtp.
Qed.

Lemma existsb_send_phone (evs : list Event) :
  existsb isSendPhone evs = true <-> In ClickSendPhoneOtp evs.
Proof.
  rewrite existsb_exists. split.
  - intros [ev [Hin He]]. now destruct ev.
  - intros H. now exists ClickSendPhoneOtp.
Qed.

Lemma gate_needs_verified (s : State) :
  canGoStep2 s = true ->
  (emailOtpSent s = true -> emailOtpVerified s = true)
  /\ (phoneOtpSent s = true -> phoneOtpVerified s = true).
Proof.
  unfold canGoStep2. cbv zeta. intros H.
  apply andb_true_iff in H as [H Hp]. apply andb_true_iff in H as [_ He].
  split; intros Hs; rewrite Hs in *; cbn [negb] in *.
  - now rewrite orb_false_r in He.
  - now rewrite orb_false_r in Hp.
Qed.

End MoreFrames.

(** X8: step 2 never locks again: from a state with step 2 every sequence
    of enabled actions ends with step 2, whatever happens to the applicant
    fields; and the step is always 1 or 2. *)
Theorem step_never_returns (evs : list Event) (s s' : State) :
  run evs s = Some s' ->
  (step s = 2%Z -> step s' = 2%Z)
  /\ (step s = 1%Z \/ step s = 2%Z -> step s' = 1%Z \/ step s' = 2%Z).
Proof.
  intros Hrun. split; intros H0; pattern s';
    apply (run_invariant _) with (evs := evs) (s := s); try assumption;
    intros ev a b Hd; apply dispatch_some in Hd as [_ ->];
    rewrite handler_step; destruct (isContinue ev); auto.
Qed.

Lemma step_never_returns_witness :
  step (handler (ChangeName []) (setStep 2 exampleApplicant)) = 2%Z
  /\ canGoStep2 (handler (ChangeName []) (setStep 2 exampleApplicant)) = false.
Proof.
  split; [|reflexivity].
  exact (proj1 (step_never_returns [ChangeName []] (setStep 2 exampleApplicant)
                  (handler (ChangeName []) (setStep 2 exampleApplicant)) eq_refl)
           eq_refl).
Defined.

(** X9: after a sequence of enabled actions from the initial state, the
    sent flag of a channel is true exactly when its Send button was
    clicked somewhere in the sequence. *)
Theorem sent_iff_send_clicked (evs : list Event) (s : State) :
  run evs initialState = Some s ->
  (emailOtpSent s = true <-> In ClickSendEmailOtp evs)
  /\ (phoneOtpSent s = true <-> In ClickSendPhoneOtp evs).
Proof.
  intros Hrun. apply sent_records_send in Hrun as [He Hp].
  cbn [initialState emailOtpSent phoneOtpSent] in He, Hp.
  rewrite orb_false_r in He, Hp. rewrite He, Hp.
  split; [apply existsb_send_email|apply existsb_send_phone].
Qed.

Lemma sent_iff_send_clicked_witness :
  emailOtpSent (handler ClickSendEmailOtp exampleApplicant) = true
  <-> In ClickSendEmailOtp (exampleApplicantEvents ++ [ClickSendEmailOtp]).
Proof.
  assert (Hrun : run (exampleApplicantEvents ++ [ClickSendEmailOtp]) initialState
                 = Some (handler ClickSendEmailOtp exampleApplicant))
    by (vm_compute; reflexivity).
  exact (proj1 (sent_iff_send_clicked (exampleApplicantEvents ++ [ClickSendEmailOtp])
                  (handler ClickSendEmailOtp exampleApplicant) Hrun)).
Defined.

(** X10: a Send cannot be taken back: once the sent flag of a channel is
    true it stays true along every sequence of enabled actions, and from
    then on [canGoStep2] can only be true when that channel is verified. *)
Theorem once_sent_needs_verified (evs : list Event) (s s' : State) :
  run evs s = Some s' ->
  (emailOtpSent s = true ->
   emailOtpSent s' = true /\ (canGoStep2 s' = true -> emailOtpVerified s' = true))
  /\ (phoneOtpSent s = true ->
      phoneOtpSent s' = true /\ (canGoStep2 s' = true -> phoneOtpVerified s' = true)).
Proof.
  intros Hrun. apply sent_records_send in Hrun as [He Hp].
  split; intros Hs; rewrite Hs, orb_true_r in *.
  - split; [exact He|]. intros Hg. now apply gate_needs_verified in Hg as [Hg _]; auto.
  - split; [exact Hp|]. intros Hg. now apply gate_needs_verified in Hg as [_ Hg]; auto.
Qed.

Lemma once_sent_needs_verified_witness :
  emailOtpSent (handler (ChangeName (str "Jo")) (handler ClickSendEmailOtp exampleApplicant))
  = true.
Proof.
  exact (proj1 (proj1 (once_sent_needs_verified [ChangeName (str "Jo")]
                         (handler ClickSendEmailOtp exampleApplicant)
                         (handler (ChangeName (str "Jo"))
                            (handler ClickSendEmailOtp exampleApplicant)) eq_refl)
                  eq_refl)).
Defined.

(** X11: an OTP input holds text only after a Send: in every reachable
    state a non-empty entered code implies that the channel's sent flag is
    true. *)
Theorem code_needs_send (s : State) :
  reachable s ->
  (emailOtp s <> [] -> emailOtpSent s = true)
  /\ (phoneOtp s <> [] -> phoneOtpSent s = true).
Proof.
  intros [evs Hrun]. pattern s.
  apply (run_invariant _) with (evs := evs) (s := initialState); [|exact Hrun|].
  - clear. intros ev s s' Hd [He Hp].
    apply dispatch_some in Hd as [Hen ->].
    rewrite handler_emailOtp, handler_emailOtpSent, handler_phoneOtp, handler_phoneOtpSent.
    split.
    + destruct ev; cbn [isSendEmail orb]; try exact He; try reflexivity.
      intros _. exact Hen.
    + destruct ev; cbn [isSendPhone orb]; try exact Hp; try reflexivity.
      intros _. exact Hen.
  - split; intros H; now contradiction H.
Qed.

Lemma code_needs_send_witness : emailOtpSent blankOtpEntered = true.
Proof.
  refine (proj1 (code_needs_send blankOtpEntered _) _).
  - exists [ClickSendEmailOtp; ChangeEmailOtp (str "    ")]. reflexivity.
  - discriminate.
Defined.

Ltac last_verify IH Hv :=
  destruct (IH _ eq_refl Hv) as (before & after & s1 & -> & Hr & Hlen & Hno);
  eexists before, (after ++ [_]), s1;
  rewrite <- app_assoc; repeat split; try assumption;
  rewrite existsb_app, Hno; reflexivity.

Lemma email_verified_history (evs : list Event) :
  forall s, run evs initialState = Some s -> emailOtpVerified s = true ->
  exists before after s1,
    evs = before ++ ClickVerifyEmailOtp :: after
    /\ run before initialState = Some s1
    /\ 4 <= length (trim (emailOtp s1))
    /\ existsb isSendEmail after = false.
Proof.
  induction evs as [|ev evs IH] using rev_ind; intros s Hrun Hv.
  - inversion Hrun; subst. discriminate.
  - rewrite run_app in Hrun.
    destruct (run evs initialState) as [sm|] eqn:Hb; [|discriminate].
    cbn [run] in Hrun.
    destruct (dispatch ev sm) as [s'|] eqn:E; [|discriminate].
    inversion Hrun; subst s'. clear Hrun.
    apply dispatch_some in E as [Hen ->].
    rewrite handler_emailOtpVerified in Hv.
    destruct ev; try discriminate Hv; try (last_verify IH Hv).
    exists evs, [], sm. repeat split; [exact Hb|now apply Nat.leb_le].
Qed.

Lemma phone_verified_history (evs : list Event) :
  forall s, run evs initialState = Some s -> phoneOtpVerified s = true ->
  exists before after s1,
    evs = before ++ ClickVerifyPhoneOtp :: after
    /\ run before initialState = Some s1
    /\ 4 <= length (trim (phoneOtp s1))
    /\ existsb isSendPhone after = false.
Proof.
  induction evs as [|ev evs IH] using rev_ind; intros s Hrun Hv.
  - inversion Hrun; subst. discriminate.
  - rewrite run_app in Hrun.
    destruct (run evs initialState) as [sm|] eqn:Hb; [|discriminate].
    cbn [run] in Hrun.
    destruct (dispatch ev sm) as [s'|] eqn:E; [|discriminate].
    inversion Hrun; subst s'. clear Hrun.
    apply dispatch_some in E as [Hen ->].
    rewrite handler_phoneOtpVerified in Hv.
    destruct ev; try discriminate Hv; try (last_verify IH Hv).
    exists evs, [], sm. repeat split; [exact Hb|now apply Nat.leb_le].
Qed.

(** X12: a channel is verified only through a successful Verify that no
    Send followed: when verified is true after a sequence of enabled
    actions from the initial state, the sequence holds a Verify click
    taken with an entered code of at least 4 code units after [trim], and
    no Send of that channel comes after it. *)
Theorem verified_needs_valid_verify (evs : list Event) (s : State) :
  run evs initialState = Some s ->
  (emailOtpVerified s = true ->
   exists before after s1,
     evs = before ++ ClickVerifyEmailOtp :: after
     /\ run before initialState = Some s1
     /\ 4 <= length (trim (emailOtp s1))
     /\ existsb isSendEmail after = false)
  /\ (phoneOtpVerified s = true ->
      exists before after s1,
        evs = before ++ ClickVerifyPhoneOtp :: after
        /\ run before initialState = Some s1
        /\ 4 <= length (trim (phoneOtp s1))
        /\ existsb isSendPhone after = false).
Proof.
  intros Hrun. split; intros Hv.
  - now apply email_verified_history with (s := s).
  - now apply phone_verified_history with (s := s).
Qed.

Lemma verified_needs_valid_verify_witness :
  exists before after s1,
    [ClickSendEmailOtp; ChangeEmailOtp (str "1234"); ClickVerifyEmailOtp; ChangeName (str "Jo")]
    = before ++ ClickVerifyEmailOtp :: after
    /\ run before initialState = Some s1
    /\ 4 <= length (trim (emailOtp s1))
    /\ existsb isSendEmail after = false.
Proof.
  assert (Hrun : run [ClickSendEmailOtp; ChangeEmailOtp (str "1234");
                      ClickVerifyEmailOtp; ChangeName (str "Jo")] initialState
                 = Some (handler (ChangeName (str "Jo"))
                           (handler ClickVerifyEmailOtp
                              (handler (ChangeEmailOtp (str "1234"))
                                 (handler ClickSendEmailOtp initialState)))))
    by (vm_compute; reflexivity).
  exact (proj1 (verified_needs_valid_verify _ _ Hrun) eq_refl).
Defined.

(** ** More on the attachment list *)

Section Attachments.

Lemma run_files (evs : list Event) :
  forall s s', run evs s = Some s' ->
  incl (files s') (files s ++ offered evs)
  /\ length (files s') <= length (files s) + length (offered evs).
Proof.
  induction evs as [|ev evs IH]; intros s s' Hrun; simpl in Hrun.
  - inversion Hrun; subst. simpl. rewrite app_nil_r. split; [apply incl_refl|lia].
  - destruct (dispatch ev s) as [s1|] eqn:E; [|discriminate].
    apply dispatch_some in E as [_ ->].
    apply IH in Hrun as [Hin Hlen].
    assert (H1 : incl (files (handler ev s))
                   (files s ++ match ev with
                               | DropFiles fl | PickFiles fl => arrayFrom fl
                               | _ => []
                               end)
                 /\ length (files (handler ev s))
                    <= length (files s)
                       + length (match ev with
                                 | DropFiles fl | PickFiles fl => arrayFrom fl
                                 | _ => []
                                 end)).
    { rewrite handler_files.
      destruct ev; try (rewrite app_nil_r; split; [apply incl_refl|simpl; lia]);
        try (split; [apply incl_refl|rewrite length_app; lia]).
      split.
      - intros f Hf. rewrite app_nil_r.
        rewrite <- (firstn_skipn idx (files s)).
        apply in_app_or in Hf as [Hf|Hf]; apply in_or_app; [now left|right].
        change (S idx) with (1 + idx) in Hf. rewrite <- skipn_skipn in Hf.
        destruct (skipn idx (files s)); [now destruct Hf|now right].
      - rewrite length_app, length_firstn, length_skipn. simpl. lia. }
    destruct H1 as [H1 H2].
    cbn [offered flat_map]. fold (offered evs).
    split.
    + intros f Hf. apply Hin in Hf.
      rewrite app_assoc. apply in_app_or in Hf as [Hf|Hf]; apply in_or_app.
      * left. now apply H1.
      * now right.
    + rewrite length_app. lia.
Qed.

End Attachments.

(** X13: the page never invents a file: after a sequence of enabled
    actions from the initial state every entry of the attachment list is a
    file that was dropped or picked along the way, and the list is no
    longer than what was handed over. *)
Theorem files_come_from_user (evs : list Event) (s : State) :
  run evs initialState = Some s ->
  (forall f, In f (files s) -> In f (offered evs))
  /\ length (files s) <= length (offered evs).
Proof.
  intros Hrun. apply run_files in Hrun as [Hin Hlen]. split.
  - intros f Hf. now apply Hin in Hf.
  - exact Hlen.
Qed.

Lemma files_come_from_user_witness :
  length (files (handler (ClickRemove 0)
                   (handler (DropFiles (Some [mkFile (str "a.pdf") 1; mkFile (str "b.pdf") 2]))
                      initialState))) <= 2.
Proof.
  assert (Hrun : run [DropFiles (Some [mkFile (str "a.pdf") 1; mkFile (str "b.pdf") 2]);
                      ClickRemove 0] initialState
                 = Some (handler (ClickRemove 0)
                           (handler (DropFiles
                                       (Some [mkFile (str "a.pdf") 1; mkFile (str "b.pdf") 2]))
                              initialState)))
    by (vm_compute; reflexivity).
  exact (proj2 (files_come_from_user _ _ Hrun)).
Defined.

(** X14: Remove after an append: removing row [length files + j] removes
    the [j]-th of the files just added and leaves the earlier entries
    alone, so adding one file and removing the last row gives the list
    back; removing an earlier row commutes with the append. *)
Theorem remove_after_append (s : State) (added : list File) (i j : nat) :
  files (handler (ClickRemove (length (files s) + j)) (handler (PickFiles (Some added)) s))
  = files s ++ (firstn j added ++ skipn (S j) added)
  /\ (forall f, files (handler (ClickRemove (length (files s)))
                         (handler (DropFiles (Some [f])) s)) = files s)
  /\ (i < length (files s) ->
      files (handler (ClickRemove i) (handler (PickFiles (Some added)) s))
      = files (handler (PickFiles (Some added)) (handler (ClickRemove i) s))).
Proof.
  split; [|split].
  - rewrite !handler_files. cbn [arrayFrom].
    rewrite firstn_app_2, skipn_app.
    replace (S (length (files s) + j) - length (files s)) with (S j) by lia.
    rewrite skipn_all2 by lia. now rewrite <- app_assoc.
  - intros f. rewrite !handler_files. cbn [arrayFrom].
    rewrite firstn_app, skipn_app, firstn_all, Nat.sub_diag.
    replace (S (length (files s)) - length (files s)) with 1 by lia.
    rewrite (skipn_all2 (files s)) by lia. simpl. now rewrite !app_nil_r.
  - intros Hi. rewrite !handler_files. cbn [arrayFrom].
    rewrite firstn_app, skipn_app.
    replace (i - length (files s)) with 0 by lia.
    replace (S i - length (files s)) with 0 by lia.
    simpl. now rewrite app_nil_r, <- app_assoc.
Qed.

(** X15: the no-ops of the attachment handlers: Remove at a row at or
    beyond the end of the list leaves the state as it is, and a drop or a
    pick leaves the state as it is exactly when it brings no file. *)
Theorem attachment_noops (s : State) (fl : option (list File)) (idx : nat) :
  (length (files s) <= idx -> handler (ClickRemove idx) s = s)
  /\ (handler (DropFiles fl) s = s <-> arrayFrom fl = [])
  /\ (handler (PickFiles fl) s = s <-> arrayFrom fl = []).
Proof.
  assert (Happ : forall s', files s' = files s ++ arrayFrom fl -> s' = s ->
                            arrayFrom fl = []).
  { intros s' Hf ->. apply (f_equal (@length File)) in Hf.
    rewrite length_app in Hf. apply length_zero_iff_nil. lia. }
  split; [|split].
  - intros H. cbn [handler]. unfold handleRemove. rewrite filter_i_drop.
    rewrite firstn_all2, skipn_all2 by lia. rewrite app_nil_r. apply setFiles_same.
  - split.
    + apply Happ. apply (handler_files (DropFiles fl)).
    + intros H. cbn [handler]. unfold handleDrop. now rewrite H.
  - split.
    + apply Happ. apply (handler_files (PickFiles fl)).
    + intros H. cbn [handler]. unfold handlePick. now rewrite H.
Qed.

(** X16: a pill or card selection cannot be cleared: once the legal
    domain, the consultation mode or the past-legal-action answer is set,
    it stays set (possibly to another option) along every sequence of
    enabled actions. *)
Theorem selections_stay_set (evs : list Event) (s s' : State) :
  run evs s = Some s' ->
  (legalDomain s <> domain_empty -> legalDomain s' <> domain_empty)
  /\ (consultMode s <> mode_empty -> consultMode s' <> mode_empty)
  /\ (pastLegalAction s <> action_empty -> pastLegalAction s' <> action_empty).
Proof.
  intros Hrun. repeat split; intros H0; pattern s';
    apply (run_invariant _) with (evs := evs) (s := s); try assumption;
    intros ev a b Hd Ha; apply dispatch_some in Hd as [Hen ->].
  - rewrite handler_legalDomain. destruct ev; try exact Ha.
    cbn [enabled] in Hen. now destruct d.
  - rewrite handler_consultMode. destruct ev; try exact Ha.
    cbn [enabled] in Hen. now destruct m.
  - rewrite handler_pastLegalAction. destruct ev; try exact Ha.
    cbn [enabled] in Hen. now destruct v.
Qed.

Lemma selections_stay_set_witness :
  legalDomain (handler (ClickLegalDomain dom_other) blankCaseRequest) <> domain_empty.
Proof.
  exact (proj1 (selections_stay_set [ClickLegalDomain dom_other] blankCaseRequest
                  (handler (ClickLegalDomain dom_other) blankCaseRequest) eq_refl)
           ltac:(discriminate)).
Defined.

(** ** Losing readiness, and what is shown *)

Section Readiness.

Lemma counselReady_reflect (s : State) :
  counselReady s = true <-> counselReady_trimmed s.
Proof.
  unfold counselReady, counselReady_trimmed.
  destruct (isCounsel s) eqn:Hc; cbn [negb].
  - apply isCounsel_iff in Hc. gate_props.
    rewrite domain_set_iff, mode_set_iff, action_set_iff.
    repeat rewrite strictNe_ne. tauto.
  - apply isCounsel_false in Hc. split; [discriminate|tauto].
Qed.

Lemma counselReady_same (s s' : State) :
  primaryService s' = primaryService s -> legalDomain s' = legalDomain s ->
  caseDetails s' = caseDetails s -> consultMode s' = consultMode s ->
  preferredDate s' = preferredDate s -> timeWindow s' = timeWindow s ->
  urgency s' = urgency s -> pastLegalAction s' = pastLegalAction s ->
  counselReady s' = counselReady s.
Proof.
  intros E1 E2 E3 E4 E5 E6 E7 E8. unfold counselReady, isCounsel.
  now rewrite E1, E2, E3, E4, E5, E6, E7, E8.
Qed.

Lemma counselReady_files (l : list File) (s : State) :
  counselReady (setFiles l s) = counselReady s.
Proof. reflexivity. Qed.

End Readiness.

(** X17: a ready counsel request stops being ready only when the service
    is changed or cleared, when the case details are changed to fewer than
    10 code units after [trim], or when the preferred date is emptied; no
    other enabled action makes [counselReady] false. *)
Theorem ready_lost_only_by (ev : Event) (s : State) :
  enabled ev s = true ->
  counselReady s = true ->
  counselReady (handler ev s) = false ->
  (exists k, ev = ClickService k /\ k <> get_counsel)
  \/ ev = ClickBackCounsel \/ ev = ClickBackOther
  \/ (exists v, ev = ChangeCaseDetails v /\ length (trim v) < 10)
  \/ ev = ChangePreferredDate [].
Proof.
  intros Hen Hr Hl.
  assert (Hkeep : counselReady_trimmed (handler ev s) -> False).
  { intros H. apply counselReady_reflect in H. congruence. }
  pose proof (proj1 (counselReady_reflect s) Hr)
    as (Hs & Hd & Hc & Hm & Hp & Ht & Hu & Ha).
  destruct ev;
    try (exfalso; apply Hkeep; unfold counselReady_trimmed; cbn; tauto);
    try (exfalso; cbn [handler] in Hl; unfold handleDrop, handlePick, handleRemove in Hl;
         match type of Hl with
         | context [if ?b then _ else _] => destruct b
         | _ => idtac
         end; try rewrite counselReady_files in Hl; congruence).
  - (* ClickService *)
    left. exists k. split; [reflexivity|]. intros ->.
    apply Hkeep. unfold counselReady_trimmed; cbn; tauto.
  - (* ClickLegalDomain *)
    exfalso. apply Hkeep. unfold counselReady_trimmed; cbn.
    cbn [enabled] in Hen. repeat split; try assumption. intros ->. discriminate.
  - (* ChangeCaseDetails *)
    destruct (Nat.lt_ge_cases (length (trim v)) 10) as [Hlt|Hge].
    + right. right. right. left. now exists v.
    + exfalso. apply Hkeep. unfold counselReady_trimmed; cbn. tauto.
  - (* ClickConsultMode *)
    exfalso. apply Hkeep. unfold counselReady_trimmed; cbn.
    cbn [enabled] in Hen. repeat split; try assumption. intros ->. discriminate.
  - (* ChangePreferredDate *)
    destruct v as [|c v].
    + now repeat right.
    + exfalso. apply Hkeep. unfold counselReady_trimmed; cbn.
      repeat split; try assumption. discriminate.
  - (* ChangeTimeWindow *)
    exfalso. apply Hkeep. unfold counselReady_trimmed; cbn.
    cbn [enabled] in Hen. apply time_window_option_set, strictNe_ne in Hen.
    repeat split; assumption.
  - (* ClickUrgency *)
    exfalso. apply Hkeep. unfold counselReady_trimmed; cbn.
    pose proof (urgency_always_set u) as Hu'. apply strictNe_ne in Hu'.
    repeat split; assumption.
  - (* ClickPastLegalAction *)
    exfalso. apply Hkeep. unfold counselReady_trimmed; cbn.
    cbn [enabled] in Hen. repeat split; try assumption. intros ->. discriminate.
  - now right; left.
  - now right; right; left.
Qed.

Lemma ready_lost_only_by_witness :
  (exists k, ChangePreferredDate [] = ClickService k /\ k <> get_counsel)
  \/ ChangePreferredDate [] = ClickBackCounsel \/ ChangePreferredDate [] = ClickBackOther
  \/ (exists v, ChangePreferredDate [] = ChangeCaseDetails v /\ length (trim v) < 10)
  \/ ChangePreferredDate [] = ChangePreferredDate [].
Proof.
  exact (ready_lost_only_by (ChangePreferredDate [])
           (setCaseDetails (str "Lease dispute") blankCaseRequest)
           eq_refl eq_refl eq_refl).
Defined.

(** X18: what the nesting of the collapsible sections shows: the
    Ready-to-Book card with Pay and Book is expanded exactly when step is
    2 and [counselReady] is true, so never for a service other than
    "get_counsel", although [readyToBook] is true there; the counsel
    sections and the other-services card are never expanded together, and
    at step 2 with a service chosen exactly one of them is. *)
Theorem ready_card_shown (s : State) :
  (expanded ClickPayAndBook s = true <-> step s = 2%Z /\ counselReady s = true)
  /\ (primaryService s <> service_empty -> primaryService s <> get_counsel ->
      readyToBook s = true /\ expanded ClickPayAndBook s = false)
  /\ expanded (ClickLegalDomain dom_other) s && expanded ClickBackOther s = false
  /\ (step s = 2%Z -> primaryService s <> service_empty ->
      xorb (expanded (ClickLegalDomain dom_other) s) (expanded ClickBackOther s) = true).
Proof.
  unfold expanded, readyToBook.
  split; [|split; [|split]].
  - rewrite !andb_true_iff, Z.eqb_eq.
    destruct (isCounsel s) eqn:Hc.
    + assert (Hs : strictEq (PrimaryService_str (primaryService s)) [] = false).
      { apply isCounsel_iff in Hc. now rewrite Hc. }
      rewrite Hs. tauto.
    + unfold counselReady. rewrite Hc. cbn [negb].
      split; intros H; destruct H as [H1 H2]; try discriminate. now destruct H1.
  - intros H1 H2. apply isCounsel_false in H2. rewrite H2.
    destruct (strictEq (PrimaryService_str (primaryService s)) []) eqn:E.
    + now apply service_set_iff in E.
    + split; [reflexivity|]. now rewrite andb_false_r.
  - destruct (step s =? 2)%Z, (isCounsel s); cbn; try reflexivity.
    now rewrite andb_false_r.
  - intros H1 H2. rewrite H1. cbn [Z.eqb Pos.eqb andb].
    destruct (isCounsel s) eqn:Hc; cbn [negb xorb].
    + now rewrite andb_false_r.
    + rewrite andb_true_r. apply strictNe_ne. intros H. apply H2.
      now apply service_set_iff, strictEq_eq.
Qed.

(** ** Acting on expanded sections only *)

Section Expanded.

Lemma runExpanded_invariant (P : State -> Prop) :
  (forall ev s s', expanded ev s = true -> dispatch ev s = Some s' -> P s -> P s') ->
  forall evs s s', runExpanded evs s = Some s' -> P s -> P s'.
Proof.
  intros Hstep evs; induction evs as [|ev evs IH]; intros s s' Hrun HP; simpl in Hrun.
  - now inversion Hrun; subst.
  - destruct (expanded ev s) eqn:Hx; [|discriminate].
    destruct (dispatch ev s) as [s1|] eqn:E; [|discriminate].
    eapply IH; eauto.
Qed.

Lemma expanded_step2 (ev : Event) (s : State) :
  expanded ev s = true ->
  match ev with
  | ClickService _ | ClickLegalDomain _ | ChangeCaseDetails _ | DropFiles _
  | PickFiles _ | ClickRemove _ | ClickConsultMode _ | ChangePreferredDate _
  | ChangeTimeWindow _ | ClickUrgency _ | ClickPastLegalAction _
  | ClickBackCounsel | ClickPayAndBook | ClickBackOther | ClickContinueOther =>
      step s = 2%Z
  | _ => True
  end.
Proof.
  destruct ev; cbn [expanded]; intros H; try exact I;
    repeat (apply andb_true_iff in H as [H _]); now apply Z.eqb_eq.
Qed.

Lemma step1_keeps_step2_fields (ev : Event) (s : State) :
  expanded ev s = true -> step s = 1%Z ->
  (step (handler ev s) = 1%Z \/ step (handler ev s) = 2%Z)
  /\ (step (handler ev s) = 1%Z -> step2Untouched s -> step2Untouched (handler ev s)).
Proof.
  intros Hx H1. pose proof (expanded_step2 ev s Hx) as H2.
  destruct ev; try (rewrite H1 in H2; discriminate H2);
    (split; [cbn; auto | intros H; try discriminate H; exact (fun U => U)]).
Qed.

Lemma expanded_untouched (evs : list Event) (s : State) :
  runExpanded evs initialState = Some s ->
  (step s = 1%Z \/ step s = 2%Z) /\ (step s = 1%Z -> step2Untouched s).
Proof.
  intros Hrun. pattern s.
  apply (runExpanded_invariant _) with (evs := evs) (s := initialState);
    [|exact Hrun|].
  - clear. intros ev s s' Hx Hd [[H1|H2] Hu].
    + apply dispatch_some in Hd as [_ ->].
      destruct (step1_keeps_step2_fields ev s Hx H1) as [Ha Hb].
      split; [exact Ha|]. intros H. apply Hb; auto.
    + apply dispatch_some in Hd as [_ ->].
      assert (H : step (handler ev s) = 2%Z)
        by (rewrite handler_step; destruct (isContinue ev); auto).
      split; [now right|]. intros H'. rewrite H in H'. discriminate.
  - split; [now left|]. intros _. unfold step2Untouched. repeat split.
Qed.

End Expanded.

(** X19: for a user who acts on expanded sections only, step 2 is sealed
    until Continue: while step is 1 the service, every counsel field and
    the attachment list hold their initial values, and a chosen service
    implies an earlier Continue click taken in a state where [canGoStep2]
    was true. *)
Theorem step2_sealed_until_continue (evs : list Event) (s : State) :
  runExpanded evs initialState = Some s ->
  (step s = 1%Z -> step2Untouched s)
  /\ (primaryService s <> service_empty ->
      step s = 2%Z
      /\ exists before after s1,
           evs = before ++ ClickContinueToServices :: after
           /\ run before initialState = Some s1
           /\ canGoStep2 s1 = true).
Proof.
  intros Hrun. destruct (expanded_untouched evs s Hrun) as [Hs Hu].
  split; [exact Hu|]. intros Hsvc.
  assert (H2 : step s = 2%Z).
  { destruct Hs as [H1|H2]; [|exact H2].
    exfalso. apply Hsvc. now destruct (Hu H1). }
  split; [exact H2|].
  apply (continue_was_clicked evs initialState s); auto.
  - now apply runExpanded_run.
  - discriminate.
Qed.

Lemma step2_sealed_until_continue_witness :
  step (handler (ClickService legal_drafting) (setStep 2 exampleApplicant)) = 2%Z.
Proof.
  assert (Hrun : runExpanded (exampleApplicantEvents
                                ++ [ClickContinueToServices; ClickService legal_drafting])
                   initialState
                 = Some (handler (ClickService legal_drafting) (setStep 2 exampleApplicant)))
    by (vm_compute; reflexivity).
  exact (proj1 (proj2 (step2_sealed_until_continue _ _ Hrun) ltac:(discriminate))).
Defined.

(** X20: the quoted total lies between 1500 and 2500 in every state and
    changes only when an urgency button is clicked. *)
Theorem total_bounds_and_frame (ev : Event) (s : State) :
  (1500 <= total s <= 2500)%Z
  /\ total (handler ev s) = match ev with
                            | ClickUrgency u => (base FEES + urgency_fee FEES u)%Z
                            | _ => total s
                            end.
Proof.
  split.
  - unfold total. destruct (urgency s); cbn; lia.
  - unfold total. rewrite handler_urgency. now destruct ev.
Qed.

(** X21: a verification outlives every edit: along a sequence of enabled
    actions with no Send and no Verify click of a channel, its verified
    flag keeps its value, also when the email address, the phone number or
    the entered code is changed. *)
Theorem verified_survives_edits (evs : list Event) (s s' : State) :
  run evs s = Some s' ->
  (existsb isSendEmail evs = false -> existsb isVerifyEmail evs = false ->
   emailOtpVerified s' = emailOtpVerified s)
  /\ (existsb isSendPhone evs = false -> existsb isVerifyPhone evs = false ->
      phoneOtpVerified s' = phoneOtpVerified s).
Proof.
  revert s; induction evs as [|ev evs IH]; intros s Hrun; simpl in Hrun.
  - inversion Hrun; subst. now split.
  - destruct (dispatch ev s) as [s1|] eqn:E; [|discriminate].
    apply dispatch_some in E as [_ ->].
    apply IH in Hrun as [He Hp].
    split; intros Hs Hv; cbn [existsb] in Hs, Hv;
      apply orb_false_iff in Hs as [Hs1 Hs2]; apply orb_false_iff in Hv as [Hv1 Hv2].
    + rewrite (He Hs2 Hv2), handler_emailOtpVerified. now destruct ev.
    + rewrite (Hp Hs2 Hv2), handler_phoneOtpVerified. now destruct ev.
Qed.

Lemma verified_survives_edits_witness :
  emailOtpVerified
    (handler (ChangeEmail (str "c@d.org"))
       (handler ClickVerifyEmailOtp
          (handler (ChangeEmailOtp (str "1234")) (handler ClickSendEmailOtp exampleApplicant))))
  = true.
Proof.
  exact (proj1 (verified_survives_edits [ChangeEmail (str "c@d.org")]
                  (handler ClickVerifyEmailOtp
                     (handler (ChangeEmailOtp (str "1234"))
                        (handler ClickSendEmailOtp exampleApplicant)))
                  _ eq_refl) eq_refl eq_refl).
Defined.
